(** * Surface residue report of [bept]: a shallow embedding of
    [src/bept/analysis/opt_files/surface_pdb_sasa.py]

    The module has three functions: [biop_fetch] (load a structure and derive
    its identifier), [calc_sasa] (print the solvent accessible surface area)
    and [get_surface_resi] (sum the potentials of a CSV per residue, write the
    result as a CSV and as a text table, then call [calc_sasa]).

    Python values are modelled as follows.
    - [str] is [string]; [None] in a place that also holds strings is
      [option string].
    - [float] is the carrier of a [PyFloat] structure.  Its main instance is
      the kernel's binary64 numbers; integers give an instance whose addition
      is exact.
    - [dict] keeps insertion order, so it is an association list updated in
      place ([PyDict]).
    - the file system is a finite map from paths to file texts; the console
      is the list of messages printed so far, and printing can raise.
    - exceptions are values of [exn]; a statement sequence that can raise is
      written in an error monad ([result]) or, when it also touches the file
      system, in a state and error monad ([Py]).
    - the third-party functions ([csv], [tabulate], [Bio.PDB], [rich]) are
      the fields of a [Libraries] structure. *)

From Stdlib Require Import ZArith Floats String Ascii List Lia Bool.
From stdpp Require Import base list strings gmap.

Local Open Scope string_scope.
Local Open Scope Z_scope.
Local Open Scope list_scope.

(** ** [str] methods *)

Module Str.

(** [s.endswith(suffix)]: some tail of [s] is [suffix]. *)
Fixpoint endswith (s suffix : string) : bool :=
  String.eqb s suffix
  || match s with
     | EmptyString => false
     | String _ t => endswith t suffix
     end.

(** [s.startswith(pre)]. *)
Definition startswith (s pre : string) : bool := String.prefix pre s.

Fixpoint rfind_from (c : ascii) (s : string) (i last : Z) : Z :=
  match s with
  | EmptyString => last
  | String x t => rfind_from c t (i + 1) (if Ascii.eqb x c then i else last)
  end.

(** [s.rfind(c)] for a one-character [c]: the highest index of [c], or -1. *)
Definition rfind (c : ascii) (s : string) : Z := rfind_from c s 0 (-1).

(** [s[i:j]] for [0 <= i]. *)
Definition slice (s : string) (i j : Z) : string :=
  String.substring (Z.to_nat i) (Z.to_nat (j - i)) s.

(** [s[i:]] for [0 <= i]. *)
Definition slice_from (s : string) (i : Z) : string :=
  String.substring (Z.to_nat i) (String.length s - Z.to_nat i) s.

(** [s[-1]], when [s] is not empty. *)
Fixpoint last_char (s : string) : option ascii :=
  match s with
  | EmptyString => None
  | String c EmptyString => Some c
  | String _ t => last_char t
  end.

(** Every character of [s] is a dot. *)
Fixpoint all_dots (s : string) : bool :=
  match s with
  | EmptyString => true
  | String x t => Ascii.eqb x "." && all_dots t
  end.

End Str.

(** ** [os.path] on a POSIX system *)

Module PosixPath.

(** [os.path.join(a, b)]: an absolute [b] discards [a]. *)
Definition join (a b : string) : string :=
  if Str.startswith b "/" then b
  else if String.eqb a "" || Str.endswith a "/" then a +:+ b
  else a +:+ "/" +:+ b.

(** The loop of [genericpath._splitext] that skips the leading dots of the
    last component: [steps] is [dotIndex - filenameIndex].  The answer is
    [true] when a character other than a dot is found before [dotIndex]. *)
Fixpoint splitext_scan (p : string) (filenameIndex : nat) (steps : nat) : bool :=
  match steps with
  | O => false
  | S n =>
      match String.get filenameIndex p with
      | Some c =>
          if Ascii.eqb c "." then splitext_scan p (S filenameIndex) n else true
      | None => true
      end
  end.

(** [os.path.splitext(p)[0]]. *)
Definition splitext_root (p : string) : string :=
  let sepIndex := Str.rfind "/" p in
  let dotIndex := Str.rfind "." p in
  if (sepIndex <? dotIndex)
     && splitext_scan p (Z.to_nat (sepIndex + 1))
                      (Z.to_nat (dotIndex - (sepIndex + 1)))
  then Str.slice p 0 dotIndex
  else p.

(** [os.path.basename(p)]: what follows the last slash. *)
Definition basename (p : string) : string :=
  Str.slice_from p (Str.rfind "/" p + 1).

End PosixPath.

(** ** [biop_fetch]: the identifier *)

(** Lines 18 to 22: the [protein_id] of [biop_fetch]. *)
Definition protein_id (protein_file : string) : string :=
  if Str.endswith protein_file ".pdb"
  then PosixPath.splitext_root protein_file
  else protein_file.

(** The identifier in the words of the specification: the file name without
    a trailing [.pdb]. *)
Definition strip_pdb (protein_file : string) : string :=
  if Str.endswith protein_file ".pdb"
  then Str.slice protein_file 0 (Z.of_nat (String.length protein_file) - 4)
  else protein_file.

(** ** Exceptions and fallible statements *)

(** The exceptions the module can meet.  All of them derive from Python's
    [Exception], so the handler of [get_surface_resi] catches every one that
    is raised inside its [try].  [MarkupError] is the exception of [rich]
    for a text whose console markup is wrong. *)
Inductive exn : Type :=
  | KeyError (key : option string)
  | TypeError (what : string)
  | ValueError (what : string)
  | OSError (path : string)
  | LibraryError (what : string)
  | MarkupError (what : string).

Inductive result (A : Type) : Type :=
  | Ok (a : A)
  | Raise (e : exn).
Arguments Ok {A} a.
Arguments Raise {A} e.

Definition rbind {A B : Type} (r : result A) (k : A -> result B) : result B :=
  match r with
  | Ok a => k a
  | Raise e => Raise e
  end.

Declare Scope result_scope.
Delimit Scope result_scope with result.
Notation "x <- r ;; k" := (rbind r (fun x => k))
  (at level 100, r at next level, right associativity) : result_scope.

(** ** Floating point numbers *)

(** What the module uses of [float]: the value of [float()], addition, the
    conversion [float(s)] of a string ([None] stands for [ValueError]) and
    [round(x, 2)]. *)
Class PyFloat : Type := {
  num : Type;
  zero : num;
  add : num -> num -> num;
  float_of_str : string -> option num;
  round2 : num -> num;
}.

(** Python's [sum(xs)]: a left fold that starts from zero. *)
Definition py_sum {F : PyFloat} (xs : list num) : num := fold_left add xs zero.

(** ** Dictionaries *)

Module PyDict.
Section dict.
Context {K V : Type} `{EqDecision K}.

(** [d.get(k)]: [None] when the key is absent. *)
Fixpoint get (d : list (K * V)) (k : K) : option V :=
  match d with
  | [] => None
  | (k', v) :: rest => if decide (k' = k) then Some v else get rest k
  end.

(** [d[k] = v]: an existing key keeps its position, a new one goes last. *)
Fixpoint set (d : list (K * V)) (k : K) (v : V) : list (K * V) :=
  match d with
  | [] => [(k, v)]
  | (k', v') :: rest =>
      if decide (k' = k) then (k', v) :: rest else (k', v') :: set rest k v
  end.

(** [list(d.keys())]. *)
Definition keys (d : list (K * V)) : list K := map fst d.
End dict.
End PyDict.

(** ** [csv.DictReader] *)

(** A row as [DictReader] yields it: field name to field text, or to [None]
    for a field the record is too short to have.  The entry that collects the
    surplus fields of a long record sits under the key [None]; no string key
    reads it, and it is left out. *)
Definition Row : Type := list (string * option string).

(** [dict(zip(fieldnames, row))] followed by the [restval] entries. *)
Definition dict_of_record (fieldnames record : list string) : Row :=
  let d := fold_left (fun d kv => PyDict.set d (fst kv) (Some (snd kv)))
                     (combine fieldnames record) [] in
  fold_left (fun d k => PyDict.set d k None)
            (skipn (length record) fieldnames) d.

(** The rows of a [DictReader] over records: the first record names the
    fields, and empty records are skipped. *)
Definition DictReader (records : list (list string)) : list Row :=
  match records with
  | [] => []
  | fieldnames :: body =>
      map (dict_of_record fieldnames)
          (List.filter (fun r => negb (Nat.eqb (length r) 0)) body)
  end.

(** [row[column]]. *)
Definition getitem (row : Row) (column : string) : result (option string) :=
  match PyDict.get row column with
  | Some v => Ok v
  | None => Raise (KeyError (Some column))
  end.

(** ** The aggregation loop of [get_surface_resi] *)

Section Aggregation.
Context {F : PyFloat}.

(** [float(v)]. *)
Definition py_float (v : option string) : result num :=
  match v with
  | None => Raise (TypeError "float() argument must be a string or a real number, not 'NoneType'")
  | Some s =>
      match float_of_str s with
      | Some x => Ok x
      | None => Raise (ValueError s)
      end
  end.

(** The two dictionaries of lines 68 and 69. *)
Record Totals : Type := {
  resi_potentials : list (option string * num);
  resi_names : list (option string * option string);
}.

Definition no_totals : Totals :=
  {| resi_potentials := []; resi_names := [] |}.

(** [resi_potentials[resi_seq] += potential] on a [defaultdict(float)]. *)
Definition add_potential (d : list (option string * num))
    (resi_seq : option string) (potential : num) : list (option string * num) :=
  PyDict.set d resi_seq (add (default zero (PyDict.get d resi_seq)) potential).

(** The body of the loop, lines 74 to 77. *)
Definition add_row (acc : Totals) (row : Row) : result Totals :=
  (resi_seq <- getitem row "Resi_Seq" ;;
   raw <- getitem row "Potential" ;;
   potential <- py_float raw ;;
   let potentials := add_potential (resi_potentials acc) resi_seq potential in
   name <- getitem row "Resi" ;;
   Ok {| resi_potentials := potentials;
         resi_names := PyDict.set (resi_names acc) resi_seq name |})%result.

(** The loop of line 73 over the rows read so far. *)
Fixpoint sum_rows (acc : Totals) (rows : list Row) : result Totals :=
  match rows with
  | [] => Ok acc
  | row :: rest => (acc' <- add_row acc row ;; sum_rows acc' rest)%result
  end.

(** The text of a field of a row ([None] also when the field is absent). *)
Definition field (column : string) (row : Row) : option string :=
  default None (PyDict.get row column).

(** The number in the [Potential] field of a well-formed row. *)
Definition potential_of (row : Row) : num :=
  default zero (float_of_str (default "" (field "Potential" row))).

(** One turn of the loop when every check of [add_row] passes. *)
Definition add_fields (acc : Totals) (row : Row) : Totals :=
  {| resi_potentials :=
       add_potential (resi_potentials acc) (field "Resi_Seq" row) (potential_of row);
     resi_names :=
       PyDict.set (resi_names acc) (field "Resi_Seq" row) (field "Resi" row) |}.

(** ** What is written *)

Inductive cell : Type :=
  | CNone
  | CStr (s : string)
  | CFloat (x : num).

Definition cell_of (v : option string) : cell :=
  match v with
  | None => CNone
  | Some s => CStr s
  end.

Definition csv_header : list cell :=
  [CStr "Resi"; CStr "Resi_Seq"; CStr "Resi_Potential"].

(** The loop of lines 83 and 84: the records handed to [writerow], and the
    exception that stopped the loop, if one did. *)
Fixpoint csv_records (names : list (option string * option string))
    (items : list (option string * num)) : list (list cell) * option exn :=
  match items with
  | [] => ([], None)
  | (resi_seq, potential) :: rest =>
      match PyDict.get names resi_seq with
      | None => ([], Some (KeyError resi_seq))
      | Some name =>
          let (written, stop) := csv_records names rest in
          ([cell_of name; cell_of resi_seq; CFloat potential] :: written, stop)
      end
  end.

(** The list comprehension of lines 87 to 94. *)
Fixpoint table_data (names : list (option string * option string))
    (items : list (option string * num)) : result (list (list (string * cell))) :=
  match items with
  | [] => Ok []
  | (resi_seq, potential) :: rest =>
      match PyDict.get names resi_seq with
      | None => Raise (KeyError resi_seq)
      | Some name =>
          (more <- table_data names rest ;;
           Ok ([("Resi", cell_of name);
                ("Resi_Seq", cell_of resi_seq);
                ("Resi_Potential", CFloat potential)] :: more))%result
      end
  end.

(** ** The report in the words of the specification *)

(** One line of the surface report. *)
Record SurfaceRow : Type := {
  Resi : option string;
  Resi_Seq : option string;
  Resi_Potential : num;
}.

Definition record_of (r : SurfaceRow) : list cell :=
  [cell_of (Resi r); cell_of (Resi_Seq r); CFloat (Resi_Potential r)].

Definition dict_of (r : SurfaceRow) : list (string * cell) :=
  [("Resi", cell_of (Resi r));
   ("Resi_Seq", cell_of (Resi_Seq r));
   ("Resi_Potential", CFloat (Resi_Potential r))].

(** The [Potential] field of the row is there and converts to a number. *)
Definition potential_converts (row : Row) : bool :=
  match PyDict.get row "Potential" with
  | Some (Some p) =>
      match float_of_str p with Some _ => true | None => false end
  | _ => false
  end.

(** A well-formed row has the three fields, and its [Potential] converts. *)
Definition well_formed_row (row : Row) : bool :=
  match PyDict.get row "Resi", PyDict.get row "Resi_Seq" with
  | Some _, Some _ => potential_converts row
  | _, _ => false
  end.

Definition well_formed (rows : list Row) : Prop :=
  Forall (fun row => well_formed_row row = true) rows.

(** The distinct elements of a list, in the order of their first
    occurrence. *)
Fixpoint first_seen (l : list (option string)) : list (option string) :=
  match l with
  | [] => []
  | k :: rest => k :: filter (fun k' => k' <> k) (first_seen rest)
  end.

(** The rows that carry a given key, in input order. *)
Definition rows_of (k : option string) (rows : list Row) : list Row :=
  filter (fun row => field "Resi_Seq" row = k) rows.

(** The potential of a key: the potentials of its rows, added from zero in
    input order. *)
Definition key_total (rows : list Row) (k : option string) : num :=
  py_sum (map potential_of (rows_of k rows)).

(** The name of a key: the [Resi] of its last row. *)
Definition key_name (rows : list Row) (k : option string) : option string :=
  match last (rows_of k rows) with
  | Some row => field "Resi" row
  | None => None
  end.

Definition report (rows : list Row) : list SurfaceRow :=
  map (fun k => {| Resi := key_name rows k;
                   Resi_Seq := k;
                   Resi_Potential := key_total rows k |})
      (first_seen (map (field "Resi_Seq") rows)).

End Aggregation.

(** ** The libraries, the file system and the console *)

(** What [CONSOLE.print] is given, line by line. *)
Inductive message {F : PyFloat} : Type :=
  | SasaValue (protein_file : string) (sasa_value : num)
  | Success (protein_file : string)
  | Failure (e : exn).

(** The functions of [csv], [tabulate], [Bio.PDB] and [rich] that the module
    calls.
    - [csv_reader text]: the records [csv.reader] yields over a file with
      this text, and the error that ends the iteration early, if any;
    - [csv_writer records]: the text that [writerow] leaves in a file after
      these records;
    - [tabulate data]: [tabulate(data, headers="keys", tablefmt="plain",
      showindex=False)];
    - [get_structure id text]: [PDBParser(QUIET=1).get_structure(id, file)]
      for a file with this text;
    - [shrake_rupley s]: [ShrakeRupley().compute(s, level="S")] followed by
      [s.sasa];
    - [markup_error m]: the exception [Console.print] raises instead of
      printing the line [m], if any.  The console of line 10 reads markup in
      what it prints, and the lines hold the caller's [protein_file] and the
      text of the exception caught: a closing tag in them that closes nothing
      makes [rich] raise [MarkupError]. *)
Class Libraries {F : PyFloat} : Type := {
  structure : Type;
  csv_reader : string -> list (list string) * option exn;
  csv_writer : list (list cell) -> string;
  tabulate : list (list (string * cell)) -> string;
  get_structure : string -> string -> result structure;
  shrake_rupley : structure -> result num;
  markup_error : message -> option exn;
}.

(** The world outside the process: the regular files with their text; for
    which paths [os.makedirs(_, exist_ok=True)] succeeds; which paths
    [open(_, "w")] can open; and what was printed.  A file is known by the
    text of its path, so the map says nothing about a second spelling of a
    path or a link to it.  Directories are not recorded: a directory that
    [os.makedirs] made is seen in no component. *)
Record World {F : PyFloat} : Type := {
  files : gmap string string;
  can_mkdir : string -> bool;
  can_write : string -> bool;
  console : list message;
}.

(** Statements that read and change a state and may raise.  The state
    survives an exception, as it does in Python. *)
Definition Py (S A : Type) : Type := S -> result A * S.

Definition ret {S A : Type} (a : A) : Py S A := fun s => (Ok a, s).

Definition raise {S A : Type} (e : exn) : Py S A := fun s => (Raise e, s).

Definition bind {S A B : Type} (m : Py S A) (k : A -> Py S B) : Py S B :=
  fun s =>
    match m s with
    | (Ok a, s') => k a s'
    | (Raise e, s') => (Raise e, s')
    end.

Definition lift {S A : Type} (r : result A) : Py S A := fun s => (r, s).

Declare Scope py_scope.
Delimit Scope py_scope with py.
Notation "x <- m ;; k" := (bind m (fun x => k))
  (at level 100, m at next level, right associativity) : py_scope.
Notation "m ;;; k" := (bind m (fun _ => k))
  (at level 100, right associativity) : py_scope.

Section Program.
Context {F : PyFloat} {L : Libraries}.

(** The world after a line is printed. *)
Definition printed (m : message) (w : World) : World :=
  {| files := files w; can_mkdir := can_mkdir w; can_write := can_write w;
     console := console w ++ [m] |}.

(** The world after a file is written. *)
Definition written (path text : string) (w : World) : World :=
  {| files := <[path := text]> (files w); can_mkdir := can_mkdir w;
     can_write := can_write w; console := console w |}.

(** [CONSOLE.print]: the markup is read before anything is written, so a
    line that raises leaves the console as it was. *)
Definition print (m : message) : Py World unit :=
  fun w =>
    match markup_error m with
    | Some e => (Raise e, w)
    | None => (Ok tt, printed m w)
    end.

(** [os.makedirs(path, exist_ok=True)]: whether it succeeds; the directory
    it makes is not part of the world. *)
Definition makedirs (path : string) : Py World unit :=
  fun w => if can_mkdir w path then (Ok tt, w) else (Raise (OSError path), w).

(** [open(path, "r")] and reading the whole text. *)
Definition read_text (path : string) : Py World string :=
  fun w =>
    match files w !! path with
    | Some text => (Ok text, w)
    | None => (Raise (OSError path), w)
    end.

(** [open(path, "w")], which may fail, then writing [text] and closing. *)
Definition write_text (path text : string) : Py World unit :=
  fun w =>
    if can_write w path
    then (Ok tt, written path text w)
    else (Raise (OSError path), w).

(** *** [biop_fetch], lines 13 to 23 *)
Definition biop_fetch (protein_file : string) : Py World (structure * string) :=
  (let protein_id := protein_id protein_file in
   text <- read_text protein_file ;;
   struct <- lift (get_structure protein_id text) ;;
   ret (struct, protein_id))%py.

(** *** [calc_sasa], lines 26 to 39 *)
Definition calc_sasa (protein_file : string) : Py World unit :=
  (fetched <- biop_fetch protein_file ;;
   sasa <- lift (shrake_rupley (fst fetched)) ;;
   let sasa_value := round2 sasa in
   print (SasaValue protein_file sasa_value))%py.

(** *** [get_surface_resi], lines 42 to 114 *)

(** Lines 71 to 77: the rows of the input file are summed one by one; an
    error of the reader is met after the rows it yielded before. *)
Definition read_potentials (protein_bept_csvpath : string) : Py World Totals :=
  (text <- read_text protein_bept_csvpath ;;
   let (records, stop) := csv_reader text in
   totals <- lift (sum_rows no_totals (DictReader records)) ;;
   match stop with
   | Some e => raise e
   | None => ret totals
   end)%py.

(** Lines 80 to 84: the file holds the header and the records written
    before the loop stopped. *)
Definition write_csv (output_csv_file : string) (totals : Totals) : Py World unit :=
  (let (written, stop) :=
     csv_records (resi_names totals) (resi_potentials totals) in
   write_text output_csv_file (csv_writer (csv_header :: written)) ;;;
   match stop with
   | Some e => raise e
   | None => ret tt
   end)%py.

Definition output_csv_file (protein_file output_dir : string) : string :=
  PosixPath.join (PosixPath.join output_dir ".bept")
                 (protein_file +:+ "_surface_data.csv").

Definition output_tabulated_file (protein_file output_dir : string) : string :=
  PosixPath.join output_dir (protein_file +:+ "_surface_data.txt").

(** Lines 57 to 100: both files are produced. *)
Definition write_reports (protein_file protein_bept_csvpath output_dir : string)
    : Py World unit :=
  (let bept_cache_dir := PosixPath.join output_dir ".bept" in
   makedirs bept_cache_dir ;;;
   totals <- read_potentials protein_bept_csvpath ;;
   write_csv (output_csv_file protein_file output_dir) totals ;;;
   data <- lift (table_data (resi_names totals) (resi_potentials totals)) ;;
   write_text (output_tabulated_file protein_file output_dir) (tabulate data))%py.

(** Lines 104 to 108: the success message and the surface area. *)
Definition announce (protein_file : string) : Py World unit :=
  (print (Success protein_file) ;;; calc_sasa protein_file)%py.

(** The local variables of [get_surface_resi] that outlive the [try]. *)
Record Frame : Type := {
  world : World;
  err_surface_calc : bool;
  destination_surface_resi_path : string;
}.

(** A statement on the world, run inside the function. *)
Definition in_world {A : Type} (m : Py World A) : Py Frame A :=
  fun f =>
    let (r, w) := m (world f) in
    (r, {| world := w; err_surface_calc := err_surface_calc f;
           destination_surface_resi_path := destination_surface_resi_path f |}).

Definition set_destination (path : string) : Py Frame unit :=
  fun f =>
    (Ok tt, {| world := world f; err_surface_calc := err_surface_calc f;
               destination_surface_resi_path := path |}).

Definition set_err (b : bool) : Py Frame unit :=
  fun f =>
    (Ok tt, {| world := world f; err_surface_calc := b;
               destination_surface_resi_path := destination_surface_resi_path f |}).

(** The body of the [try], lines 56 to 108. *)
Definition try_body (protein_file protein_bept_csvpath output_dir : string)
    : Py Frame unit :=
  (in_world (write_reports protein_file protein_bept_csvpath output_dir) ;;;
   set_destination (output_tabulated_file protein_file output_dir) ;;;
   in_world (announce protein_file))%py.

(** The handler, lines 110 to 112.  What its [print] raises is raised in
    no [try]: the flag is not set and the exception leaves the function. *)
Definition except_Exception (e : exn) : Py Frame unit :=
  (in_world (print (Failure e)) ;;; set_err true)%py.

(** Lines 53 and 54: the local variables on entry. *)
Definition entry_frame (w : World) : Frame :=
  {| world := w; err_surface_calc := false;
     destination_surface_resi_path := "" |}.

(** The whole function: the pair it returns or the exception it raises to
    its caller, and the world it leaves.  The caller passes [output_dir]; its
    default is the working directory at the time the module was loaded. *)
Definition get_surface_resi (protein_file protein_bept_csvpath output_dir : string)
    (w : World) : result (string * bool) * World :=
  let (outcome, frame) :=
    try_body protein_file protein_bept_csvpath output_dir (entry_frame w) in
  let (handler, frame) :=
    match outcome with
    | Ok _ => (Ok tt, frame)
    | Raise e => except_Exception e frame
    end in
  (match handler with
   | Ok _ => Ok (destination_surface_resi_path frame, err_surface_calc frame)
   | Raise e => Raise e
   end,
   world frame).

(** What the caller gets from a call whose [try] raised [e] when the
    destination path was [path]. *)
Definition caught (path : string) (e : exn) : result (string * bool) :=
  match markup_error (Failure e) with
  | Some e' => Raise e'
  | None => Ok (path, true)
  end.

(** What the handler adds to the console for the exception [e]. *)
Definition error_line (e : exn) : list message :=
  match markup_error (Failure e) with
  | Some _ => []
  | None => [Failure e]
  end.

(** The end of such a call, with the world it leaves. *)
Definition handled (path : string) (e : exn) (w : World)
    : result (string * bool) * World :=
  match markup_error (Failure e) with
  | Some e' => (Raise e', w)
  | None => (Ok (path, true), printed (Failure e) w)
  end.

(** ** Reading the outcome of a run *)

(** The rows the loop of line 73 goes through when the input file is
    there and the reader meets no error. *)
Definition input_rows (protein_bept_csvpath : string) (w : World)
    : option (list Row) :=
  match files w !! protein_bept_csvpath with
  | Some text =>
      match csv_reader text with
      | (records, None) => Some (DictReader records)
      | (_, Some _) => None
      end
  | None => None
  end.

(** The text of a file when [get_surface_resi] has ended. *)
Definition file_after (protein_file protein_bept_csvpath output_dir : string)
    (w : World) (path : string) : option string :=
  files (snd (get_surface_resi protein_file protein_bept_csvpath output_dir w))
    !! path.

(** The pair [get_surface_resi] returns, or the exception it raises. *)
Definition returned (protein_file protein_bept_csvpath output_dir : string)
    (w : World) : result (string * bool) :=
  fst (get_surface_resi protein_file protein_bept_csvpath output_dir w).

(** ** Comparing runs *)


(** Two worlds that are the same but for the text of one file. *)
Definition same_but (path : string) (w1 w2 : World) : Prop :=
  (forall p, p <> path -> files w1 !! p = files w2 !! p)
  /\ can_mkdir w1 = can_mkdir w2
  /\ can_write w1 = can_write w2
  /\ console w1 = console w2.

(** A statement that does not look at the text of the file at [path]. *)
Definition blind_to {A : Type} (path : string) (m : Py World A) : Prop :=
  forall w1 w2,
    same_but path w1 w2 ->
    fst (m w1) = fst (m w2) /\ same_but path (snd (m w1)) (snd (m w2)).

(** A statement that removes no file. *)
Definition keeps_files {A : Type} (m : Py World A) : Prop :=
  forall w p, is_Some (files w !! p) -> is_Some (files (snd (m w)) !! p).

(** The records [writerow] is given for these rows, when the loops of
    lines 73 and 83 run to their end. *)
Definition written_records (rows : list Row) : option (list (list cell)) :=
  match sum_rows no_totals rows with
  | Ok totals =>
      match csv_records (resi_names totals) (resi_potentials totals) with
      | (records, None) => Some records
      | (_, Some _) => None
      end
  | Raise _ => None
  end.

End Program.

(** ** Instances used in the examples *)

(** Binary64 numbers.  [float_of_str] knows the literals of the examples
    below; [round2] is right on numbers that have at most two decimals, the
    only ones the examples round. *)
Definition float_literals : list (string * float) :=
  [("0.0", 0%float); ("0.5", 0.5%float); ("1.0", 1%float); ("1.5", 1.5%float);
   ("2.5", 2.5%float); ("4.0", 4%float); ("1e16", 1e16%float);
   ("-1e16", (-1e16)%float)].

Definition binary64 : PyFloat := {|
  num := float;
  zero := 0%float;
  add := PrimFloat.add;
  float_of_str := PyDict.get float_literals;
  round2 := fun x => x;
|}.

(** Exact arithmetic: integers written in decimal. *)
Fixpoint digits_value (s : string) (acc : Z) : option Z :=
  match s with
  | EmptyString => Some acc
  | String c t =>
      let d := Z.of_nat (nat_of_ascii c) - 48 in
      if (0 <=? d) && (d <=? 9) then digits_value t (10 * acc + d) else None
  end.

Definition integer_of_str (s : string) : option Z :=
  match s with
  | EmptyString => None
  | String "-" (String c t) => option_map Z.opp (digits_value (String c t) 0)
  | _ => digits_value s 0
  end.

Definition exact : PyFloat := {|
  num := Z;
  zero := 0;
  add := Z.add;
  float_of_str := integer_of_str;
  round2 := fun x => x;
|}.

(** A small stand-in for the libraries.  Text without quotes is cut at line
    feeds and commas.  A structure is the list of the [ATOM] records of its
    file; an empty file is refused by the parser, and a structure without
    atoms by [ShrakeRupley], as in [Bio.PDB].  The stand-in computes no
    surface: a structure with an atom gets the area [1.0], and no example
    depends on this number.  The console refuses a line that holds the
    closing tag [[/]]; the examples hold no opening tag that it could
    close. *)
Definition line_feed : string := String "010"%char EmptyString.

Definition unlines (lines : list string) : string :=
  fold_right (fun line text => line +:+ line_feed +:+ text) "" lines.

Fixpoint split (sep : ascii) (s : string) : list string :=
  match s with
  | EmptyString => [""]
  | String c t =>
      if Ascii.eqb c sep then "" :: split sep t
      else match split sep t with
           | [] => [String c ""]
           | w :: ws => String c w :: ws
           end
  end.

Definition plain_record (line : string) : list string :=
  if String.eqb line "" then [] else split "," line.

(** The lines of a text: a line feed ends a line, and the characters after
    the last line feed, if any, make a last line. *)
Definition splitlines (text : string) : list string :=
  let pieces := split "010" text in
  match last pieces with
  | Some "" => removelast pieces
  | _ => pieces
  end.

Definition plain_csv_reader (text : string) : list (list string) * option exn :=
  (map plain_record (splitlines text), None).

Definition plain_cell (c : @cell binary64) : string :=
  match c with
  | CNone => ""
  | CStr s => s
  | CFloat x =>
      match List.find (fun lit => PrimFloat.eqb (snd lit) x) float_literals with
      | Some lit => fst lit
      | None => "?"
      end
  end.

Definition plain_csv_writer (records : list (list (@cell binary64))) : string :=
  unlines (map (fun r => String.concat "," (map plain_cell r)) records).

Definition plain_tabulate (data : list (list (string * @cell binary64))) : string :=
  unlines (map (fun d => String.concat " " (map (fun kv => plain_cell (snd kv)) d)) data).

Definition plain_get_structure (id text : string) : result (list string) :=
  if String.eqb text ""
  then Raise (ValueError "Empty file.")
  else Ok (List.filter (fun line => Str.startswith line "ATOM  ") (splitlines text)).

Definition plain_shrake_rupley (atoms : list string) : result float :=
  match atoms with
  | [] => Raise (ValueError "Entity has no child atoms.")
  | _ :: _ => Ok 1%float
  end.

(** [needle in hay]. *)
Fixpoint contains (needle hay : string) : bool :=
  Str.startswith hay needle
  || match hay with
     | EmptyString => false
     | String _ t => contains needle t
     end.

(** The part of an exception's text that comes from the program's input. *)
Definition exn_text (e : exn) : string :=
  match e with
  | KeyError (Some key) => key
  | KeyError None => "None"
  | TypeError what | ValueError what | LibraryError what | MarkupError what => what
  | OSError path => path
  end.

(** The part of a line that comes from the program's input. *)
Definition message_text (m : @message binary64) : string :=
  match m with
  | SasaValue protein_file _ => protein_file
  | Success protein_file => protein_file
  | Failure e => exn_text e
  end.

Definition plain_markup_error (m : @message binary64) : option exn :=
  if contains "[/]" (message_text m)
  then Some (MarkupError "closing tag '[/]' has nothing to close")
  else None.

Definition plain_libraries : @Libraries binary64 := {|
  structure := list string;
  csv_reader := plain_csv_reader;
  csv_writer := plain_csv_writer;
  tabulate := plain_tabulate;
  get_structure := plain_get_structure;
  shrake_rupley := plain_shrake_rupley;
  markup_error := plain_markup_error;
|}.

(** A structure file with one atom. *)
Definition atom_record : string :=
  "ATOM      1  N   ALA A   1      11.104   6.134  -6.504  1.00  0.00           N".

Definition one_atom : string := unlines [atom_record; "END"].

(** A world with an input table and, when [with_pdb] holds, the structure
    file [1abc.pdb]; every directory and file can be written. *)
Definition example_world (table : list string) (with_pdb : bool) : @World binary64 :=
  {| files := if with_pdb
              then <["in.csv" := unlines table]> (<["1abc.pdb" := one_atom]> ∅)
              else <["in.csv" := unlines table]> ∅;
     can_mkdir := fun _ => true;
     can_write := fun _ => true;
     console := [] |}.

(** The rows of section 8 of the specification. *)
Definition spec_table : list string :=
  ["Resi,Resi_Seq,Potential"; "ALA,12,1.5"; "ALA,12,2.5"; "GLY,13,0.0"].

(** Two rows of one residue around a row of another, with potentials whose
    sum depends on the order of the additions. *)
Definition rounding_table : list string :=
  ["Resi,Resi_Seq,Potential"; "ALA,12,1e16"; "GLY,13,1.0"; "ALA,12,-1e16"].

(** One key under two names. *)
Definition renamed_table : list string :=
  ["Resi,Resi_Seq,Potential"; "ALA,12,1.5"; "GLY,13,0.5"; "SER,12,2.5"].

(** A table without the [Potential] column, with and without a data row. *)
Definition no_potential_table : list string := ["Resi,Resi_Seq"; "ALA,12"].

Definition header_only_table : list string := ["Resi,Resi_Seq"].

(** A table with a potential that is not a number. *)
Definition unparsable_table : list string :=
  ["Resi,Resi_Seq,Potential"; "ALA,12,1.5"; "GLY,13,high"].

(** A potential that is a closing markup tag. *)
Definition markup_table : list string :=
  ["Resi,Resi_Seq,Potential"; "ALA,12,[/]"].




Definition rows_of_table (table : list string) : list Row :=
  DictReader (fst (plain_csv_reader (unlines table))).

(** [get_surface_resi] and [biop_fetch] for binary64 and the stand-in. *)
Definition run_get_surface_resi :=
  @get_surface_resi binary64 plain_libraries.

Definition run_biop_fetch := @biop_fetch binary64 plain_libraries.

(** The world of the specification's table in which the text table cannot
    be opened for writing. *)
Definition locked_table_world : @World binary64 :=
  {| files := <["in.csv" := unlines spec_table]> (<["1abc.pdb" := one_atom]> ∅);
     can_mkdir := fun _ => true;
     can_write := fun path => negb (String.eqb path "out/1abc.pdb_surface_data.txt");
     console := [] |}.

(** A world whose only file is a structure file named [.pdb]. *)
Definition hidden_file_world : @World binary64 :=
  {| files := <[".pdb" := one_atom]> ∅;
     can_mkdir := fun _ => true;
     can_write := fun _ => true;
     console := [] |}.

(** ** What a statement reads and writes *)

Section Footprint.
Context {F : PyFloat} {L : Libraries}.

(** Two worlds with the same permissions. *)
Definition same_permissions (w1 w2 : World) : Prop :=
  can_mkdir w1 = can_mkdir w2 /\ can_write w1 = can_write w2.

(** A statement that looks at no file outside [reads] and writes no file
    outside [writes]: run in two worlds with the same permissions and the
    same text in the files of [reads], it has the same result and writes the
    same texts to the same files; it leaves the permissions alone. *)
Definition footprint {A : Type} (reads writes : string -> Prop)
    (m : Py World A) : Prop :=
  forall w1 w2,
    same_permissions w1 w2 ->
    (forall p, reads p -> files w1 !! p = files w2 !! p) ->
    fst (m w1) = fst (m w2)
    /\ same_permissions w1 (snd (m w1))
    /\ same_permissions w2 (snd (m w2))
    /\ exists delta : gmap string string,
         (forall p, ~ writes p -> delta !! p = None)
         /\ files (snd (m w1)) = delta ∪ files w1
         /\ files (snd (m w2)) = delta ∪ files w2.

(** Lines 56 to 108 as one statement on the world. *)
Definition try_statements (protein_file protein_bept_csvpath output_dir : string)
    : Py World unit :=
  (write_reports protein_file protein_bept_csvpath output_dir ;;;
   announce protein_file)%py.

End Footprint.

(** A statement that ended without writing: same result, no file changed. *)
Ltac nothing_written :=
  split; [reflexivity|];
  split; [split; reflexivity|];
  split; [split; reflexivity|];
  exists ∅;
  split; [intros ? _; apply lookup_empty|];
  split; symmetry; apply map_empty_union.

(** A table in which every row has a key of its own. *)
Definition distinct_table : list string :=
  ["Resi,Resi_Seq,Potential"; "ALA,12,1.5"; "GLY,13,0.5"].


(** The world of the specification's table with one more file and an
    earlier line on the console. *)
Definition cluttered_world : @World binary64 :=
  {| files := <["notes.txt" := "keep"]>
                (<["in.csv" := unlines spec_table]> (<["1abc.pdb" := one_atom]> ∅));
     can_mkdir := fun _ => true;
     can_write := fun _ => true;
     console := [@Success binary64 "earlier"] |}.

(** The two dictionaries after the rows of the specification's table. *)
Definition spec_totals : @Totals binary64 :=
  @Build_Totals binary64
    [(Some "12", 4%float); (Some "13", 0%float)]
    [(Some "12", Some "ALA"); (Some "13", Some "GLY")].

(** The prefix [os.path.join(output_dir, b)] puts before a relative [b]. *)
Definition directory_prefix (output_dir : string) : string :=
  if String.eqb output_dir "" || Str.endswith output_dir "/"
  then output_dir
  else output_dir +:+ "/".

(** One more row for key 12 of the specification's table. *)
Definition late_row : Row :=
  [("Resi", Some "SER"); ("Resi_Seq", Some "12"); ("Potential", Some "0.5")].

(** * Facts about the model *)

Section StringFacts.

Lemma str_app_nil_l (t : string) : "" +:+ t = t.
Proof. reflexivity. Qed.

Lemma str_app_cons (c : ascii) (s t : string) : String c s +:+ t = String c (s +:+ t).
Proof. reflexivity. Qed.

Lemma str_length_app (s t : string) :
  String.length (s +:+ t) = (String.length s + String.length t)%nat.
Proof.
  induction s as [|c s IH]; [reflexivity|].
  rewrite str_app_cons. simpl. now rewrite IH.
Qed.

Lemma str_app_empty_r (s : string) : s +:+ "" = s.
Proof.
  induction s as [|c s IH]; [reflexivity|]. rewrite str_app_cons. now rewrite IH.
Qed.

Lemma str_app_assoc (s t u : string) : (s +:+ t) +:+ u = s +:+ (t +:+ u).
Proof.
  induction s as [|c s IH]; [reflexivity|]. rewrite !str_app_cons. now rewrite IH.
Qed.

Lemma endswith_app (r suffix : string) : Str.endswith (r +:+ suffix) suffix = true.
Proof.
  induction r as [|c r IH].
  - rewrite str_app_nil_l. destruct suffix; simpl; rewrite ?Ascii.eqb_refl, ?String.eqb_refl; reflexivity.
  - rewrite str_app_cons. simpl. rewrite IH. apply orb_true_r.
Qed.

Lemma endswith_inv (s suffix : string) :
  Str.endswith s suffix = true -> exists r, s = r +:+ suffix.
Proof.
  induction s as [|c s IH]; simpl; intros Hs.
  - apply orb_true_iff in Hs as [Hs | Hs]; [|discriminate].
    exists "". destruct suffix; [reflexivity | discriminate].
  - apply orb_true_iff in Hs as [Hs | Hs].
    + exists "". rewrite str_app_nil_l. apply String.eqb_eq. exact Hs.
    + destruct (IH Hs) as [r ->]. exists (String c r). reflexivity.
Qed.

Lemma rfind_from_app (c : ascii) (s t : string) (i last : Z) :
  Str.rfind_from c (s +:+ t) i last
  = Str.rfind_from c t (i + Z.of_nat (String.length s)) (Str.rfind_from c s i last).
Proof.
  revert i last. induction s as [|x s IH]; intros i last.
  - rewrite str_app_nil_l. simpl. f_equal. lia.
  - rewrite str_app_cons. simpl Str.rfind_from. rewrite IH. simpl String.length. f_equal. lia.
Qed.

Lemma rfind_from_bounds (c : ascii) (s : string) (i last : Z) :
  last < i ->
  last <= Str.rfind_from c s i last < i + Z.of_nat (String.length s)
  /\ (Str.rfind_from c s i last = last \/ i <= Str.rfind_from c s i last).
Proof.
  revert i last. induction s as [|x s IH]; intros i last Hlt; simpl.
  - lia.
  - destruct (Ascii.eqb x c).
    + destruct (IH (i + 1) i ltac:(lia)) as [? ?]. lia.
    + destruct (IH (i + 1) last ltac:(lia)) as [? ?]. lia.
Qed.

Lemma substring_app_l (i n : nat) (s t : string) :
  (i + n <= String.length s)%nat ->
  String.substring i n (s +:+ t) = String.substring i n s.
Proof.
  revert i n. induction s as [|x s IH]; intros i n Hle; simpl in Hle.
  - assert (i = 0%nat) by lia. assert (n = 0%nat) by lia. subst.
    rewrite str_app_nil_l. destruct t; reflexivity.
  - rewrite str_app_cons. destruct i as [|i]; simpl.
    + destruct n as [|n]; [reflexivity|]. f_equal. apply (IH 0%nat n). lia.
    + apply IH. lia.
Qed.

Lemma substring_all (s : string) : String.substring 0 (String.length s) s = s.
Proof. induction s as [|x s IH]; simpl; [reflexivity | now rewrite IH]. Qed.

Lemma scan_cons (x : ascii) (p : string) (i n : nat) :
  PosixPath.splitext_scan (String x p) (S i) n = PosixPath.splitext_scan p i n.
Proof.
  revert i. induction n as [|n IH]; intros i; [reflexivity|].
  cbn [PosixPath.splitext_scan String.get].
  destruct (String.get i p) as [c|]; [|reflexivity].
  destruct (Ascii.eqb c "."); [apply IH | reflexivity].
Qed.

Lemma scan_all_dots (p : string) (i n : nat) :
  (i + n <= String.length p)%nat ->
  PosixPath.splitext_scan p i n = negb (Str.all_dots (String.substring i n p)).
Proof.
  revert i n. induction p as [|x p IH]; intros i n Hle; simpl in Hle.
  - assert (i = 0%nat) by lia. assert (n = 0%nat) by lia. subst. reflexivity.
  - destruct i as [|i].
    + destruct n as [|n]; [reflexivity|].
      cbn [PosixPath.splitext_scan String.get String.substring Str.all_dots].
      destruct (Ascii.eqb x "."); [|reflexivity].
      rewrite scan_cons. apply IH. lia.
    + rewrite scan_cons. cbn [String.substring]. apply IH. lia.
Qed.

End StringFacts.

Section Identifier.

Lemma rfind_slash_pdb (r : string) : Str.rfind "/" (r +:+ ".pdb") = Str.rfind "/" r.
Proof. unfold Str.rfind. rewrite rfind_from_app. reflexivity. Qed.

Lemma rfind_dot_pdb (r : string) :
  Str.rfind "." (r +:+ ".pdb") = Z.of_nat (String.length r).
Proof. unfold Str.rfind. rewrite rfind_from_app. reflexivity. Qed.

Lemma strip_pdb_app (r : string) : strip_pdb (r +:+ ".pdb") = r.
Proof.
  unfold strip_pdb, Str.slice. rewrite endswith_app, str_length_app.
  replace (Z.to_nat (Z.of_nat (String.length r + String.length ".pdb") - 4 - 0))
    with (String.length r) by (simpl String.length; lia).
  change (Z.to_nat 0) with 0%nat.
  rewrite substring_app_l by lia. apply substring_all.
Qed.

Lemma splitext_root_pdb (r : string) :
  PosixPath.splitext_root (r +:+ ".pdb")
  = if Str.all_dots (PosixPath.basename r) then r +:+ ".pdb" else r.
Proof.
  unfold PosixPath.splitext_root, PosixPath.basename, Str.slice, Str.slice_from.
  rewrite rfind_slash_pdb, rfind_dot_pdb.
  destruct (rfind_from_bounds "/" r 0 (-1) ltac:(lia)) as [Hb _].
  fold (Str.rfind "/" r) in Hb. set (sep := Str.rfind "/" r) in *.
  replace (sep <? Z.of_nat (String.length r)) with true by (symmetry; apply Z.ltb_lt; lia).
  rewrite andb_true_l, scan_all_dots by (rewrite str_length_app; simpl String.length; lia).
  rewrite substring_app_l by lia.
  replace (Z.to_nat (Z.of_nat (String.length r) - (sep + 1)))
    with (String.length r - Z.to_nat (sep + 1))%nat by lia.
  destruct (Str.all_dots _); simpl negb; cbv iota; [reflexivity|].
  replace (Z.to_nat (Z.of_nat (String.length r) - 0)) with (String.length r) by lia.
  change (Z.to_nat 0) with 0%nat.
  rewrite substring_app_l by lia. apply substring_all.
Qed.

End Identifier.

Section DictFacts.
Context {K V : Type} `{EqDecision K}.

Lemma get_tabulated (f : K -> V) (ks : list K) (k : K) :
  PyDict.get (map (fun k' => (k', f k')) ks) k
  = if decide (k ∈ ks) then Some (f k) else None.
Proof.
  induction ks as [|k0 ks IH].
  - destruct (decide (k ∈ [])) as [Hin|]; [inversion Hin | reflexivity].
  - cbn [map PyDict.get].
    destruct (decide (k0 = k)) as [->|Hne].
    + destruct (decide (k ∈ k :: ks)) as [_|Hout]; [reflexivity|].
      exfalso; apply Hout; left.
    + rewrite IH.
      destruct (decide (k ∈ ks)) as [Hin|Hin];
        destruct (decide (k ∈ k0 :: ks)) as [Hin'|Hin']; try reflexivity.
      * exfalso. apply Hin'. now right.
      * exfalso. apply elem_of_cons in Hin' as [->|?]; [now apply Hne | now apply Hin].
Qed.

Lemma set_tabulated (f g : K -> V) (ks : list K) (k : K) (v : V) :
  NoDup ks ->
  g k = v ->
  (forall k', k' <> k -> g k' = f k') ->
  PyDict.set (map (fun k' => (k', f k')) ks) k v
  = map (fun k' => (k', g k')) (if decide (k ∈ ks) then ks else ks ++ [k]).
Proof.
  intros Hnd Hk Hother. induction ks as [|k0 ks IH].
  - destruct (decide (k ∈ [])) as [Hin|_]; [inversion Hin|].
    simpl. now rewrite Hk.
  - apply NoDup_cons in Hnd as [Hk0 Hnd].
    cbn [map PyDict.set].
    destruct (decide (k0 = k)) as [->|Hne].
    + destruct (decide (k ∈ k :: ks)) as [_|Hout]; [|exfalso; apply Hout; left].
      cbn [map]. rewrite Hk. f_equal.
      apply map_ext_in. intros k' Hin. f_equal. symmetry. apply Hother.
      intros ->. apply Hk0. now apply list_elem_of_In.
    + rewrite (IH Hnd), <- (Hother k0 Hne).
      destruct (decide (k ∈ ks)) as [Hin|Hin];
        destruct (decide (k ∈ k0 :: ks)) as [Hin'|Hin']; try reflexivity.
      * exfalso. apply Hin'. now right.
      * exfalso. apply elem_of_cons in Hin' as [->|?]; [now apply Hne | now apply Hin].
Qed.

Lemma keys_tabulated (f : K -> V) (ks : list K) :
  PyDict.keys (map (fun k' => (k', f k')) ks) = ks.
Proof.
  unfold PyDict.keys. rewrite map_map. simpl. apply map_id.
Qed.

End DictFacts.

Section FirstSeen.
Context {F : PyFloat}.

Lemma elem_of_first_seen (l : list (option string)) (k : option string) :
  k ∈ first_seen l <-> k ∈ l.
Proof.
  induction l as [|k0 l IH]; simpl; [reflexivity|].
  rewrite !elem_of_cons, list_elem_of_filter, IH.
  destruct (decide (k = k0)); intuition.
Qed.

Lemma NoDup_first_seen (l : list (option string)) : NoDup (first_seen l).
Proof.
  induction l as [|k0 l IH]; simpl; [constructor|].
  apply NoDup_cons. split.
  - rewrite list_elem_of_filter. intros [Hne _]. now apply Hne.
  - now apply NoDup_filter.
Qed.

Lemma first_seen_snoc (l : list (option string)) (k : option string) :
  first_seen (l ++ [k])
  = if decide (k ∈ l) then first_seen l else first_seen l ++ [k].
Proof.
  induction l as [|k0 l IH].
  - destruct (decide (k ∈ [])) as [Hin|_]; [inversion Hin | reflexivity].
  - cbn [app first_seen]. rewrite IH.
    destruct (decide (k ∈ l)) as [Hin|Hin];
      destruct (decide (k ∈ k0 :: l)) as [Hin'|Hin']; try reflexivity.
    + exfalso. apply Hin'. now right.
    + apply elem_of_cons in Hin' as [->|?]; [|now exfalso].
      rewrite filter_app, filter_cons_False by (intros Hc; now apply Hc).
      rewrite filter_nil. now rewrite app_nil_r.
    + rewrite filter_app, filter_cons_True; [reflexivity|].
      intros ->. apply Hin'. left.
Qed.

End FirstSeen.

Section AggregationFacts.
Context {F : PyFloat}.

Lemma add_row_well_formed (acc : Totals) (row : Row) :
  well_formed_row row = true -> add_row acc row = Ok (add_fields acc row).
Proof.
  unfold well_formed_row, potential_converts, add_row, add_fields, getitem,
    potential_of, field.
  destruct (PyDict.get row "Resi") as [name|]; try discriminate.
  destruct (PyDict.get row "Resi_Seq") as [key|]; try discriminate.
  destruct (PyDict.get row "Potential") as [[p|]|]; try discriminate.
  simpl. destruct (float_of_str p) as [x|]; [reflexivity | discriminate].
Qed.

Lemma add_row_rejects (acc : Totals) (row : Row) :
  well_formed_row row = false -> exists e, add_row acc row = Raise e.
Proof.
  unfold well_formed_row, potential_converts, add_row, getitem.
  destruct (PyDict.get row "Resi_Seq") as [key|]; simpl.
  - destruct (PyDict.get row "Potential") as [[p|]|]; simpl.
    + destruct (float_of_str p) as [x|]; simpl.
      * destruct (PyDict.get row "Resi") as [name|]; simpl; [discriminate|eauto].
      * eauto.
    + eauto.
    + eauto.
  - eauto.
Qed.

Lemma potential_converts_well_formed (row : Row) :
  potential_converts row = false -> well_formed_row row = false.
Proof.
  unfold well_formed_row. intros ->.
  destruct (PyDict.get row "Resi"), (PyDict.get row "Resi_Seq"); reflexivity.
Qed.

Lemma sum_rows_well_formed (rows : list Row) (acc : Totals) :
  well_formed rows -> sum_rows acc rows = Ok (fold_left add_fields rows acc).
Proof.
  intros Hwf. revert acc. induction Hwf as [|row rows Hrow _ IH]; intros acc.
  - reflexivity.
  - simpl. rewrite (add_row_well_formed _ _ Hrow). simpl. apply IH.
Qed.

Lemma rows_of_snoc (k : option string) (rows : list Row) (row : Row) :
  rows_of k (rows ++ [row])
  = rows_of k rows ++ (if decide (field "Resi_Seq" row = k) then [row] else []).
Proof.
  unfold rows_of. rewrite filter_app. reflexivity.
Qed.

Lemma rows_of_absent (k : option string) (rows : list Row) :
  k ∉ map (field "Resi_Seq") rows -> rows_of k rows = [].
Proof.
  intros Hout. unfold rows_of. induction rows as [|row rows IH]; [reflexivity|].
  rewrite filter_cons_False.
  - apply IH. intros Hin. apply Hout. simpl. now right.
  - intros Heq. apply Hout. simpl. rewrite Heq. left.
Qed.

Lemma py_sum_snoc (xs : list num) (x : num) : py_sum (xs ++ [x]) = add (py_sum xs) x.
Proof. unfold py_sum. now rewrite fold_left_app. Qed.

Lemma key_total_snoc (rows : list Row) (row : Row) (k : option string) :
  key_total (rows ++ [row]) k
  = if decide (field "Resi_Seq" row = k)
    then add (key_total rows k) (potential_of row)
    else key_total rows k.
Proof.
  unfold key_total. rewrite rows_of_snoc.
  destruct (decide (field "Resi_Seq" row = k)).
  - rewrite map_app. apply py_sum_snoc.
  - now rewrite app_nil_r.
Qed.

Lemma key_name_snoc (rows : list Row) (row : Row) (k : option string) :
  key_name (rows ++ [row]) k
  = if decide (field "Resi_Seq" row = k) then field "Resi" row else key_name rows k.
Proof.
  unfold key_name. rewrite rows_of_snoc.
  destruct (decide (field "Resi_Seq" row = k)).
  - now rewrite last_snoc.
  - now rewrite app_nil_r.
Qed.

(** The dictionaries after the loop, key by key. *)
Lemma fold_add_fields (rows : list Row) :
  let ks := first_seen (map (field "Resi_Seq") rows) in
  resi_potentials (fold_left add_fields rows no_totals)
    = map (fun k => (k, key_total rows k)) ks
  /\ resi_names (fold_left add_fields rows no_totals)
    = map (fun k => (k, key_name rows k)) ks.
Proof.
  induction rows as [|row rows IH] using rev_ind; [split; reflexivity|].
  destruct IH as [IHp IHn]. cbv zeta.
  rewrite fold_left_app, map_app. cbn [fold_left map]. rewrite first_seen_snoc.
  set (k := field "Resi_Seq" row).
  set (ks := first_seen (map (field "Resi_Seq") rows)) in *.
  rewrite (decide_ext (k ∈ map (field "Resi_Seq") rows) (k ∈ ks))
    by (symmetry; apply elem_of_first_seen).
  unfold add_fields at 1 3. cbn [resi_potentials resi_names]. fold k.
  rewrite IHp, IHn. unfold add_potential. split.
  - apply set_tabulated.
    + apply NoDup_first_seen.
    + rewrite key_total_snoc. fold k. rewrite decide_True by reflexivity.
      f_equal. rewrite get_tabulated.
      destruct (decide (k ∈ ks)) as [Hin|Hout]; [reflexivity|].
      simpl. unfold key_total. rewrite rows_of_absent; [reflexivity|].
      intros Hin. apply Hout. now apply elem_of_first_seen.
    + intros k' Hne. rewrite key_total_snoc. fold k.
      rewrite decide_False; [reflexivity | congruence].
  - apply set_tabulated.
    + apply NoDup_first_seen.
    + rewrite key_name_snoc. fold k. now rewrite decide_True.
    + intros k' Hne. rewrite key_name_snoc. fold k.
      rewrite decide_False; [reflexivity | congruence].
Qed.

Lemma sum_rows_inv (rows : list Row) (acc totals : Totals) :
  sum_rows acc rows = Ok totals ->
  well_formed rows /\ totals = fold_left add_fields rows acc.
Proof.
  revert acc. induction rows as [|row rows IH]; intros acc Hsum; simpl in Hsum.
  - injection Hsum as <-. split; [apply Forall_nil_2 | reflexivity].
  - destruct (well_formed_row row) eqn:Hrow.
    + rewrite (add_row_well_formed _ _ Hrow) in Hsum. simpl in Hsum.
      destruct (IH _ Hsum) as [Hwf ->].
      split; [now apply Forall_cons_2 | reflexivity].
    + destruct (add_row_rejects acc row Hrow) as [e He].
      rewrite He in Hsum. discriminate.
Qed.

Lemma sum_rows_rejects (rows : list Row) (row : Row) (acc : Totals) :
  In row rows -> well_formed_row row = false ->
  exists e, sum_rows acc rows = Raise e.
Proof.
  intros Hin Hrow. destruct (sum_rows acc rows) as [totals|e] eqn:Hsum; [|eauto].
  apply sum_rows_inv in Hsum as [Hwf _].
  unfold well_formed in Hwf. rewrite Forall_forall in Hwf.
  apply list_elem_of_In in Hin. rewrite (Hwf _ Hin) in Hrow. discriminate.
Qed.

Lemma csv_records_tabulated (n : option string -> option string)
    (t : option string -> num) (ks ks' : list (option string)) :
  (forall k, k ∈ ks' -> k ∈ ks) ->
  csv_records (map (fun k => (k, n k)) ks) (map (fun k => (k, t k)) ks')
  = (map (fun k => record_of {| Resi := n k; Resi_Seq := k; Resi_Potential := t k |}) ks',
     None).
Proof.
  intros Hsub. induction ks' as [|k ks' IH]; [reflexivity|].
  cbn [map csv_records]. rewrite get_tabulated.
  rewrite decide_True by (apply Hsub; left).
  rewrite IH by (intros k' Hk'; apply Hsub; now right). reflexivity.
Qed.

Lemma table_data_tabulated (n : option string -> option string)
    (t : option string -> num) (ks ks' : list (option string)) :
  (forall k, k ∈ ks' -> k ∈ ks) ->
  table_data (map (fun k => (k, n k)) ks) (map (fun k => (k, t k)) ks')
  = Ok (map (fun k => dict_of {| Resi := n k; Resi_Seq := k; Resi_Potential := t k |}) ks').
Proof.
  intros Hsub. induction ks' as [|k ks' IH]; [reflexivity|].
  cbn [map table_data]. rewrite get_tabulated.
  rewrite decide_True by (apply Hsub; left).
  rewrite IH by (intros k' Hk'; apply Hsub; now right). reflexivity.
Qed.

(** What the loop leaves and what the two writers are given, for a
    well-formed input. *)
Lemma report_written (rows : list Row) :
  well_formed rows ->
  exists totals,
    sum_rows no_totals rows = Ok totals
    /\ csv_records (resi_names totals) (resi_potentials totals)
       = (map record_of (report rows), None)
    /\ table_data (resi_names totals) (resi_potentials totals)
       = Ok (map dict_of (report rows)).
Proof.
  intros Hwf. exists (fold_left add_fields rows no_totals).
  split; [now apply sum_rows_well_formed|].
  destruct (fold_add_fields rows) as [-> ->]. unfold report.
  rewrite csv_records_tabulated, table_data_tabulated by auto.
  rewrite !map_map. split; reflexivity.
Qed.

End AggregationFacts.

Section PathFacts.

Lemma last_char_app (r t : string) :
  t <> "" -> Str.last_char (r +:+ t) = Str.last_char t.
Proof.
  intros Ht. induction r as [|c r IH]; [reflexivity|].
  rewrite str_app_cons. cbn [Str.last_char]. rewrite IH.
  destruct (r +:+ t) eqn:Hrt; [|reflexivity].
  exfalso. destruct r; [now apply Ht | discriminate].
Qed.

Lemma join_suffix (a b : string) : exists pre, PosixPath.join a b = pre +:+ b.
Proof.
  unfold PosixPath.join. destruct (Str.startswith b "/").
  - now exists "".
  - destruct (String.eqb a "" || Str.endswith a "/").
    + now exists a.
    + exists (a +:+ "/"). now rewrite str_app_assoc.
Qed.

Lemma last_char_join (a stem ext : string) :
  ext <> "" ->
  Str.last_char (PosixPath.join a (stem +:+ ext)) = Str.last_char ext.
Proof.
  intros Hext. destruct (join_suffix a (stem +:+ ext)) as [pre ->].
  rewrite <- str_app_assoc. now apply last_char_app.
Qed.

Lemma output_files_differ (protein_file output_dir : string) :
  output_csv_file protein_file output_dir
  <> output_tabulated_file protein_file output_dir.
Proof.
  intros Heq. apply (f_equal Str.last_char) in Heq.
  unfold output_csv_file, output_tabulated_file in Heq.
  rewrite !last_char_join in Heq by discriminate. discriminate.
Qed.

Lemma output_tabulated_file_not_empty (protein_file output_dir : string) :
  output_tabulated_file protein_file output_dir <> "".
Proof.
  intros Heq. apply (f_equal Str.last_char) in Heq.
  unfold output_tabulated_file in Heq.
  rewrite last_char_join in Heq by discriminate. discriminate.
Qed.

End PathFacts.

Section RunFacts.
Context {F : PyFloat} {L : Libraries}.

Lemma handled_caught (path : string) (e : exn) (w : World) :
  fst (handled path e w) = caught path e.
Proof. unfold handled, caught. now destruct (markup_error _). Qed.

Lemma handled_console (path : string) (e : exn) (w : World) :
  console (snd (handled path e w)) = console w ++ error_line e.
Proof.
  unfold handled, error_line. destruct (markup_error _); [|reflexivity].
  simpl. now rewrite app_nil_r.
Qed.

Lemma handled_files (path : string) (e : exn) (w : World) :
  files (snd (handled path e w)) = files w.
Proof. unfold handled. now destruct (markup_error _). Qed.

(** The three ways through [get_surface_resi]. *)
Lemma get_surface_resi_cases (protein_file protein_bept_csvpath output_dir : string)
    (w : World) :
  get_surface_resi protein_file protein_bept_csvpath output_dir w
  = match write_reports protein_file protein_bept_csvpath output_dir w with
    | (Raise e, w1) => handled "" e w1
    | (Ok _, w1) =>
        match announce protein_file w1 with
        | (Raise e, w2) =>
            handled (output_tabulated_file protein_file output_dir) e w2
        | (Ok _, w2) =>
            (Ok (output_tabulated_file protein_file output_dir, false), w2)
        end
    end.
Proof.
  unfold get_surface_resi, try_body, except_Exception, handled, bind, in_world,
    set_destination, set_err, print.
  simpl.
  destruct (write_reports _ _ _ w) as [[[]|e] w1]; simpl.
  - destruct (announce _ w1) as [[[]|e] w2]; simpl; [reflexivity|].
    now destruct (markup_error (Failure e)).
  - now destruct (markup_error (Failure e)).
Qed.

Lemma print_files (m : message) (w : World) :
  files (snd (print m w)) = files w.
Proof. unfold print. now destruct (markup_error m). Qed.

Lemma calc_sasa_files (protein_file : string) (w : World) :
  files (snd (calc_sasa protein_file w)) = files w.
Proof.
  unfold calc_sasa, biop_fetch, bind, read_text, lift, ret.
  destruct (files w !! protein_file); [|reflexivity].
  destruct (get_structure _ _); [|reflexivity].
  destruct (shrake_rupley _); [apply print_files | reflexivity].
Qed.

Lemma announce_files (protein_file : string) (w : World) :
  files (snd (announce protein_file w)) = files w.
Proof.
  unfold announce, bind.
  pose proof (print_files (Success protein_file) w) as Hprint.
  destruct (print _ w) as [[[]|e] w1]; simpl in *; [|exact Hprint].
  now rewrite calc_sasa_files.
Qed.

(** The files when the function has returned are those [write_reports]
    left: neither the last steps nor the handler touch a file. *)
Lemma files_after_write_reports (protein_file protein_bept_csvpath output_dir : string)
    (w : World) :
  files (snd (get_surface_resi protein_file protein_bept_csvpath output_dir w))
  = files (snd (write_reports protein_file protein_bept_csvpath output_dir w)).
Proof.
  rewrite get_surface_resi_cases.
  destruct (write_reports _ _ _ w) as [[[]|e] w1]; [|apply handled_files].
  simpl. rewrite <- (announce_files protein_file w1).
  destruct (announce _ w1) as [[[]|e] w2]; [reflexivity | apply handled_files].
Qed.

Lemma read_potentials_rows (protein_bept_csvpath : string) (w : World)
    (rows : list Row) :
  input_rows protein_bept_csvpath w = Some rows ->
  read_potentials protein_bept_csvpath w
  = (sum_rows no_totals rows, w).
Proof.
  unfold input_rows, read_potentials, bind, read_text, lift, ret.
  destruct (files w !! protein_bept_csvpath) as [text|]; [|discriminate].
  destruct (csv_reader text) as [records [e|]]; [discriminate|].
  intros [= <-]. destruct (sum_rows _ _); reflexivity.
Qed.

(** With a well-formed input the function gets as far as opening the CSV
    file, and then as far as opening the text table. *)
Lemma write_reports_well_formed (protein_file protein_bept_csvpath output_dir : string)
    (w : World) (rows : list Row) :
  can_mkdir w (PosixPath.join output_dir ".bept") = true ->
  input_rows protein_bept_csvpath w = Some rows ->
  well_formed rows ->
  let csv_path := output_csv_file protein_file output_dir in
  let txt_path := output_tabulated_file protein_file output_dir in
  let csv_text := csv_writer (csv_header :: map record_of (report rows)) in
  let txt_text := tabulate (map dict_of (report rows)) in
  write_reports protein_file protein_bept_csvpath output_dir w
  = if can_write w csv_path
    then if can_write w txt_path
         then (Ok tt, written txt_path txt_text (written csv_path csv_text w))
         else (Raise (OSError txt_path), written csv_path csv_text w)
    else (Raise (OSError csv_path), w).
Proof.
  intros Hdir Hrows Hwf. cbv zeta.
  destruct (report_written rows Hwf) as (totals & Hsum & Hcsv & Htab).
  unfold write_reports, bind, makedirs. rewrite Hdir.
  rewrite (read_potentials_rows _ _ _ Hrows), Hsum.
  unfold write_csv, bind. rewrite Hcsv.
  unfold write_text at 1.
  destruct (can_write w (output_csv_file protein_file output_dir)); [|reflexivity].
  unfold ret, lift. rewrite Htab. unfold write_text. simpl can_write.
  destruct (can_write w (output_tabulated_file protein_file output_dir)); reflexivity.
Qed.

(** Once the CSV file can be opened it holds the report for good. *)
Lemma csv_file_after (protein_file protein_bept_csvpath output_dir : string)
    (w : World) (rows : list Row) :
  can_mkdir w (PosixPath.join output_dir ".bept") = true ->
  input_rows protein_bept_csvpath w = Some rows ->
  well_formed rows ->
  can_write w (output_csv_file protein_file output_dir) = true ->
  file_after protein_file protein_bept_csvpath output_dir w
             (output_csv_file protein_file output_dir)
  = Some (csv_writer (csv_header :: map record_of (report rows))).
Proof.
  intros Hdir Hrows Hwf Hcsv. unfold file_after.
  rewrite files_after_write_reports.
  rewrite (write_reports_well_formed _ _ _ _ _ Hdir Hrows Hwf). cbv zeta.
  rewrite Hcsv.
  destruct (can_write w (output_tabulated_file protein_file output_dir)); simpl.
  - rewrite lookup_insert_ne by (intros Heq; symmetry in Heq; now apply output_files_differ in Heq).
    apply lookup_insert_eq.
  - apply lookup_insert_eq.
Qed.

Lemma txt_file_after (protein_file protein_bept_csvpath output_dir : string)
    (w : World) (rows : list Row) :
  can_mkdir w (PosixPath.join output_dir ".bept") = true ->
  input_rows protein_bept_csvpath w = Some rows ->
  well_formed rows ->
  can_write w (output_csv_file protein_file output_dir) = true ->
  can_write w (output_tabulated_file protein_file output_dir) = true ->
  file_after protein_file protein_bept_csvpath output_dir w
             (output_tabulated_file protein_file output_dir)
  = Some (tabulate (map dict_of (report rows))).
Proof.
  intros Hdir Hrows Hwf Hcsv Htxt. unfold file_after.
  rewrite files_after_write_reports.
  rewrite (write_reports_well_formed _ _ _ _ _ Hdir Hrows Hwf). cbv zeta.
  rewrite Hcsv, Htxt. simpl. apply lookup_insert_eq.
Qed.

End RunFacts.

Section ReportFacts.
Context {F : PyFloat}.

Lemma well_formed_forallb (rows : list Row) :
  forallb well_formed_row rows = true -> well_formed rows.
Proof.
  intros Hall. apply Forall_forall. intros row Hin.
  rewrite forallb_forall in Hall. apply Hall. now apply list_elem_of_In.
Qed.

Lemma report_keys (rows : list Row) :
  map Resi_Seq (report rows) = first_seen (map (field "Resi_Seq") rows).
Proof. unfold report. rewrite map_map. apply map_id. Qed.

Lemma report_potentials (rows : list Row) :
  map Resi_Potential (report rows)
  = map (key_total rows) (first_seen (map (field "Resi_Seq") rows)).
Proof. unfold report. now rewrite map_map. Qed.

Lemma dict_of_values (r : SurfaceRow) : map snd (dict_of r) = record_of r.
Proof. reflexivity. Qed.

(** Adding to one entry of a dictionary adds to the sum of its values,
    when addition is associative and commutative and zero is neutral. *)
Section Exact.
Hypothesis add_assoc : forall x y z : num, add x (add y z) = add (add x y) z.
Hypothesis add_comm : forall x y : num, add x y = add y x.
Hypothesis add_zero_l : forall x : num, add zero x = x.

Lemma fold_add_shift (xs : list num) (a x : num) :
  fold_left add xs (add a x) = add (fold_left add xs a) x.
Proof.
  revert a. induction xs as [|y xs IH]; intros a; [reflexivity|].
  simpl. rewrite <- IH. f_equal.
  rewrite <- !add_assoc. f_equal. apply add_comm.
Qed.

Lemma add_potential_sum (d : list (option string * num)) (k : option string)
    (x a : num) :
  fold_left add (map snd (add_potential d k x)) a
  = add (fold_left add (map snd d) a) x.
Proof.
  unfold add_potential. revert a. induction d as [|[k0 v0] d IH]; intros a.
  - simpl. now rewrite add_zero_l.
  - cbn [PyDict.get PyDict.set]. destruct (decide (k0 = k)) as [->|Hne].
    + cbn [map fold_left snd default]. rewrite add_assoc. apply fold_add_shift.
    + cbn [map fold_left snd]. apply IH.
Qed.

Lemma fold_add_fields_sum (rows : list Row) (acc : Totals) :
  py_sum (map snd (resi_potentials (fold_left add_fields rows acc)))
  = fold_left add (map potential_of rows)
              (py_sum (map snd (resi_potentials acc))).
Proof.
  revert acc. induction rows as [|row rows IH]; intros acc; [reflexivity|].
  cbn [fold_left map]. rewrite IH. f_equal.
  unfold add_fields. cbn [resi_potentials]. apply add_potential_sum.
Qed.

Lemma report_sum (rows : list Row) :
  py_sum (map Resi_Potential (report rows)) = py_sum (map potential_of rows).
Proof.
  rewrite report_potentials.
  destruct (fold_add_fields rows) as [Hp _].
  replace (map (key_total rows) (first_seen (map (field "Resi_Seq") rows)))
    with (map snd (resi_potentials (fold_left add_fields rows no_totals)))
    by (rewrite Hp, map_map; reflexivity).
  apply fold_add_fields_sum.
Qed.
End Exact.

Lemma last_filter_split {A : Type} (P : A -> Prop) `{forall x, Decision (P x)}
    (l : list A) (x : A) :
  last (filter P l) = Some x ->
  exists before after,
    l = before ++ x :: after /\ P x /\ Forall (fun y => ~ P y) after.
Proof.
  induction l as [|y l IH] using rev_ind; [discriminate|].
  rewrite filter_app. destruct (decide (P y)) as [Hy|Hy].
  - rewrite (filter_cons_True P y []) by exact Hy. rewrite filter_nil, last_snoc.
    intros [= <-]. exists l, []. repeat split; [exact Hy | constructor].
  - rewrite (filter_cons_False P y []) by exact Hy. rewrite filter_nil, app_nil_r.
    intros Hlast. destruct (IH Hlast) as (before & after & -> & Hx & Hafter).
    exists before, (after ++ [y]). rewrite <- app_assoc. repeat split; [exact Hx|].
    apply Forall_app. split; [exact Hafter|]. now constructor.
Qed.

Lemma rows_of_present (rows : list Row) (k : option string) :
  k ∈ map (field "Resi_Seq") rows -> exists row, last (rows_of k rows) = Some row.
Proof.
  intros Hin. destruct (last (rows_of k rows)) as [row|] eqn:Hlast; [eauto|].
  apply last_None in Hlast. exfalso.
  apply list_elem_of_fmap in Hin as (row & -> & Hrow).
  assert (Hin : row ∈ rows_of (field "Resi_Seq" row) rows)
    by (apply list_elem_of_filter; split; [reflexivity | exact Hrow]).
  rewrite Hlast in Hin. inversion Hin.
Qed.

Lemma report_names (rows : list Row) (r : SurfaceRow) :
  r ∈ report rows ->
  exists before row after,
    rows = before ++ row :: after
    /\ field "Resi_Seq" row = Resi_Seq r
    /\ Forall (fun row' => field "Resi_Seq" row' <> Resi_Seq r) after
    /\ Resi r = field "Resi" row.
Proof.
  unfold report. intros Hin.
  apply list_elem_of_fmap in Hin as (k & -> & Hk). cbn [Resi Resi_Seq].
  rewrite elem_of_first_seen in Hk.
  destruct (rows_of_present rows k Hk) as [row Hlast].
  unfold key_name. rewrite Hlast.
  apply last_filter_split in Hlast as (before & after & -> & Hrow & Hafter).
  exists before, row, after. repeat split; assumption.
Qed.

End ReportFacts.

Section KeepFacts.
Context {F : PyFloat} {L : Libraries}.

Lemma keeps_bind {A B : Type} (m : Py World A) (k : A -> Py World B) :
  keeps_files m -> (forall a, keeps_files (k a)) -> keeps_files (bind m k).
Proof.
  intros Hm Hk w p Hp. unfold bind. specialize (Hm w p Hp).
  destruct (m w) as [[a|e] w1]; simpl in *; [now apply Hk | exact Hm].
Qed.

Lemma keeps_pure {A : Type} (r : result A) : keeps_files (lift (S := World) r).
Proof. intros w p Hp. exact Hp. Qed.

Lemma keeps_raise {A : Type} (e : exn) : keeps_files (raise (S := World) (A := A) e).
Proof. intros w p Hp. exact Hp. Qed.

Lemma keeps_ret {A : Type} (a : A) : keeps_files (ret (S := World) a).
Proof. intros w p Hp. exact Hp. Qed.

Lemma keeps_makedirs (path : string) : keeps_files (makedirs path).
Proof. intros w p Hp. unfold makedirs. now destruct (can_mkdir w path). Qed.

Lemma keeps_read_text (path : string) : keeps_files (read_text path).
Proof. intros w p Hp. unfold read_text. now destruct (files w !! path). Qed.

Lemma keeps_write_text (path text : string) : keeps_files (write_text path text).
Proof.
  intros w p Hp. unfold write_text. destruct (can_write w path); [|exact Hp].
  simpl. apply lookup_insert_is_Some'. now right.
Qed.

Lemma keeps_write_reports (protein_file protein_bept_csvpath output_dir : string) :
  keeps_files (write_reports protein_file protein_bept_csvpath output_dir).
Proof.
  unfold write_reports.
  apply keeps_bind; [apply keeps_makedirs | intros _].
  apply keeps_bind.
  - unfold read_potentials. apply keeps_bind; [apply keeps_read_text | intros text].
    destruct (csv_reader text) as [records stop].
    apply keeps_bind; [apply keeps_pure | intros totals].
    destruct stop; [apply keeps_raise | apply keeps_ret].
  - intros totals. apply keeps_bind.
    + unfold write_csv. destruct (csv_records _ _) as [recs stop].
      apply keeps_bind; [apply keeps_write_text | intros _].
      destruct stop; [apply keeps_raise | apply keeps_ret].
    + intros _. apply keeps_bind; [apply keeps_pure | intros data].
      apply keeps_write_text.
Qed.

Lemma get_surface_resi_keeps (protein_file protein_bept_csvpath output_dir : string)
    (w : World) (p : string) :
  is_Some (files w !! p) ->
  is_Some (file_after protein_file protein_bept_csvpath output_dir w p).
Proof.
  intros Hp. unfold file_after. rewrite files_after_write_reports.
  now apply keeps_write_reports.
Qed.

(** A run that reports no error has written the text table. *)
Lemma write_reports_ok_table (protein_file protein_bept_csvpath output_dir : string)
    (w w1 : World) :
  write_reports protein_file protein_bept_csvpath output_dir w = (Ok tt, w1) ->
  is_Some (files w1 !! output_tabulated_file protein_file output_dir).
Proof.
  unfold write_reports, bind, lift.
  destruct (makedirs _ w) as [[[]|?] w0]; [|discriminate].
  destruct (read_potentials _ w0) as [[totals|?] w2]; [|discriminate].
  destruct (write_csv _ totals w2) as [[[]|?] w3]; [|discriminate].
  destruct (table_data _ _) as [data|?]; [|discriminate].
  unfold write_text. destruct (can_write w3 _); [|discriminate].
  intros [= <-]. simpl. apply lookup_insert_is_Some'. now left.
Qed.

End KeepFacts.

Section BlindFacts.
Context {F : PyFloat} {L : Libraries}.







Lemma blind_makedirs (c path : string) : blind_to c (makedirs path).
Proof.
  intros w1 w2 Hw. unfold makedirs. destruct Hw as (? & Hdir & ? & ?) eqn:Hsame.
  rewrite Hdir. destruct (can_mkdir w2 path); split; try reflexivity; clear Hsame;
    repeat split; assumption.
Qed.








End BlindFacts.

Section TryFacts.
Context {F : PyFloat} {L : Libraries}.

Lemma try_body_cases (protein_file protein_bept_csvpath output_dir : string)
    (w : World) :
  fst (try_body protein_file protein_bept_csvpath output_dir (entry_frame w))
  = match write_reports protein_file protein_bept_csvpath output_dir w with
    | (Raise e, _) => Raise e
    | (Ok _, w1) => fst (announce protein_file w1)
    end.
Proof.
  unfold try_body, bind, in_world, set_destination, entry_frame. simpl.
  destruct (write_reports _ _ _ w) as [[[]|e] w1]; simpl; [|reflexivity].
  destruct (announce _ w1) as [[[]|e] w2]; reflexivity.
Qed.

Lemma returned_cases (protein_file protein_bept_csvpath output_dir : string)
    (w : World) :
  returned protein_file protein_bept_csvpath output_dir w
  = match write_reports protein_file protein_bept_csvpath output_dir w with
    | (Raise e, _) => caught "" e
    | (Ok _, w1) =>
        match fst (announce protein_file w1) with
        | Raise e => caught (output_tabulated_file protein_file output_dir) e
        | Ok _ => Ok (output_tabulated_file protein_file output_dir, false)
        end
    end.
Proof.
  unfold returned. rewrite get_surface_resi_cases.
  destruct (write_reports _ _ _ w) as [[[]|e] w1]; [|apply handled_caught].
  destruct (announce _ w1) as [[[]|e] w2]; [reflexivity | apply handled_caught].
Qed.

(** What is returned with the flag set was caught, and what is raised was
    raised by the handler's own line. *)
Lemma caught_ok (path : string) (e : exn) (pair : string * bool) :
  caught path e = Ok pair ->
  markup_error (Failure e) = None /\ pair = (path, true).
Proof. unfold caught. destruct (markup_error _); [discriminate|]. now intros [= <-]. Qed.

Lemma caught_raise (path : string) (e e' : exn) :
  caught path e = Raise e' -> markup_error (Failure e) = Some e'.
Proof. unfold caught. destruct (markup_error _); [|discriminate]. now intros [= <-]. Qed.

(** The path of a call that returns. *)
Lemma returned_path (protein_file protein_bept_csvpath output_dir : string)
    (w : World) (path : string) (flag : bool) :
  returned protein_file protein_bept_csvpath output_dir w = Ok (path, flag) ->
  path = match fst (write_reports protein_file protein_bept_csvpath output_dir w) with
         | Raise _ => ""
         | Ok _ => output_tabulated_file protein_file output_dir
         end.
Proof.
  rewrite returned_cases.
  destruct (write_reports _ _ _ w) as [[[]|e] w1]; simpl.
  - destruct (fst (announce protein_file w1)) as [[]|e].
    + now intros [= <- _].
    + intros Hc. now apply caught_ok in Hc as [_ [= <- _]].
  - intros Hc. now apply caught_ok in Hc as [_ [= <- _]].
Qed.

(** A call that returns the flag false returns the path of the table. *)
Lemma returned_false (protein_file protein_bept_csvpath output_dir : string)
    (w : World) (path : string) :
  returned protein_file protein_bept_csvpath output_dir w = Ok (path, false) ->
  path = output_tabulated_file protein_file output_dir.
Proof.
  rewrite returned_cases.
  destruct (write_reports _ _ _ w) as [[[]|e] w1]; simpl.
  - destruct (fst (announce protein_file w1)) as [[]|e].
    + now intros [= <-].
    + intros Hc. now apply caught_ok in Hc as [_ [= _]].
  - intros Hc. now apply caught_ok in Hc as [_ [= _]].
Qed.

Lemma write_reports_rejects (protein_file protein_bept_csvpath output_dir : string)
    (w : World) (text : string) (row : Row) :
  files w !! protein_bept_csvpath = Some text ->
  In row (DictReader (fst (csv_reader text))) ->
  potential_converts row = false ->
  exists e, fst (write_reports protein_file protein_bept_csvpath output_dir w) = Raise e.
Proof.
  intros Hfile Hin Hrow.
  unfold write_reports, bind, makedirs, read_potentials, bind, read_text, lift.
  destruct (can_mkdir w _); [|simpl; eauto].
  rewrite Hfile. destruct (csv_reader text) as [records stop]. simpl in Hin.
  destruct (sum_rows_rejects _ _ no_totals Hin
              (potential_converts_well_formed _ Hrow)) as [e ->].
  simpl. eauto.
Qed.

End TryFacts.


(** * The properties of the specification *)

(** C1, as amended.  [get_surface_resi] catches every exception raised in
    its [try] block and prints an error line for it.  When that line is
    printed the function returns with the error flag true; the returned path
    is the empty string when the exception was raised before the text table
    was written (making the directory, reading and summing the input, writing
    either file), and the path of the text table when it was raised after
    that, by the last two statements of the block.  When printing the error
    line raises, as the console does for an exception text with a closing
    markup tag, that exception is raised to the caller and no pair is
    returned.  A flag that is returned is true exactly when an exception was
    caught, and the function raises in no other way. *)
Theorem get_surface_resi_catches {F : PyFloat} {L : Libraries}
    (protein_file protein_bept_csvpath output_dir : string) (w : World) :
  (forall path flag,
     returned protein_file protein_bept_csvpath output_dir w = Ok (path, flag) ->
     (flag = true <->
      exists e,
        fst (try_body protein_file protein_bept_csvpath output_dir (entry_frame w))
        = Raise e))
  /\ (forall e,
        fst (write_reports protein_file protein_bept_csvpath output_dir w) = Raise e ->
        returned protein_file protein_bept_csvpath output_dir w
        = match markup_error (Failure e) with
          | None => Ok ("", true)
          | Some e' => Raise e'
          end)
  /\ (forall w1 e,
        write_reports protein_file protein_bept_csvpath output_dir w = (Ok tt, w1) ->
        fst (announce protein_file w1) = Raise e ->
        returned protein_file protein_bept_csvpath output_dir w
        = match markup_error (Failure e) with
          | None => Ok (output_tabulated_file protein_file output_dir, true)
          | Some e' => Raise e'
          end)
  /\ (forall e',
        returned protein_file protein_bept_csvpath output_dir w = Raise e' ->
        exists e,
          fst (try_body protein_file protein_bept_csvpath output_dir (entry_frame w))
          = Raise e
          /\ markup_error (Failure e) = Some e').
Proof.
  rewrite returned_cases, try_body_cases.
  destruct (write_reports _ _ _ w) as [[[]|e] w1]; simpl.
  - split; [|split; [|split]].
    + intros path flag. destruct (fst (announce protein_file w1)) as [[]|e].
      * intros [= _ Hflag]. subst flag.
        split; [discriminate | intros [e He]; discriminate].
      * intros Hc. apply caught_ok in Hc as [_ [= _ Hflag]]. subst flag.
        split; eauto.
    + intros e He. discriminate.
    + intros w1' e [= <-] ->. reflexivity.
    + intros e'. destruct (fst (announce protein_file w1)) as [[]|e]; [discriminate|].
      intros Hc. apply caught_raise in Hc. eauto.
  - split; [|split; [|split]].
    + intros path flag Hc. apply caught_ok in Hc as [_ [= _ Hflag]]. subst flag.
      split; eauto.
    + intros e0 [= <-]. reflexivity.
    + intros w1' e0 Heq. discriminate.
    + intros e' Hc. apply caught_raise in Hc. eauto.
Qed.

(** The structure file [1abc.pdb] is missing: both reports are written,
    [calc_sasa] raises, and the path of the text table is returned with the
    error flag. *)
Lemma get_surface_resi_path_after_failed_sasa :
  fst (@write_reports binary64 plain_libraries "1abc.pdb" "in.csv" "out"
         (example_world spec_table false)) = Ok tt
  /\ fst (@try_body binary64 plain_libraries "1abc.pdb" "in.csv" "out"
            (entry_frame (example_world spec_table false)))
     = Raise (OSError "1abc.pdb")
  /\ @returned binary64 plain_libraries "1abc.pdb" "in.csv" "out"
       (example_world spec_table false)
     = Ok ("out/1abc.pdb_surface_data.txt", true).
Proof. repeat split; vm_compute; reflexivity. Qed.

(** A potential that is a closing markup tag: the [ValueError] caught
    carries it, the error line cannot be printed, and the call raises. *)
Example get_surface_resi_raises_markup_error :
  fst (@try_body binary64 plain_libraries "1abc.pdb" "in.csv" "out"
         (entry_frame (example_world markup_table true)))
  = Raise (ValueError "[/]")
  /\ run_get_surface_resi "1abc.pdb" "in.csv" "out" (example_world markup_table true)
     = (Raise (MarkupError "closing tag '[/]' has nothing to close"),
        example_world markup_table true).
Proof. split; vm_compute; reflexivity. Qed.

(** C2, as amended.  For a well-formed input the [Resi_Potential] of an
    output row is the sum of the [Potential] values of the input rows with
    its key, added from [0.0] in input order.  The sum of [Resi_Potential]
    over the output rows equals the sum of [Potential] over the input rows
    whenever addition is associative and commutative and zero is neutral,
    as it is in exact arithmetic. *)
Theorem potential_sum_regrouped {F : PyFloat} {L : Libraries}
    (protein_file protein_bept_csvpath output_dir : string) (w : World)
    (rows : list Row) :
  can_mkdir w (PosixPath.join output_dir ".bept") = true ->
  input_rows protein_bept_csvpath w = Some rows ->
  well_formed rows ->
  can_write w (output_csv_file protein_file output_dir) = true ->
  file_after protein_file protein_bept_csvpath output_dir w
             (output_csv_file protein_file output_dir)
    = Some (csv_writer (csv_header :: map record_of (report rows)))
  /\ map Resi_Potential (report rows)
     = map (fun k => py_sum (map potential_of (rows_of k rows)))
           (first_seen (map (field "Resi_Seq") rows))
  /\ ((forall x y z : num, add x (add y z) = add (add x y) z) ->
      (forall x y : num, add x y = add y x) ->
      (forall x : num, add zero x = x) ->
      py_sum (map Resi_Potential (report rows)) = py_sum (map potential_of rows)).
Proof.
  intros Hdir Hrows Hwf Hcsv. split; [|split].
  - now apply csv_file_after.
  - apply report_potentials.
  - intros Hassoc Hcomm Hzero. now apply report_sum.
Qed.

Lemma potential_sum_regrouped_witness :
  (can_mkdir (example_world spec_table true) (PosixPath.join "out" ".bept") = true
   /\ @input_rows binary64 plain_libraries "in.csv" (example_world spec_table true)
      = Some (rows_of_table spec_table)
   /\ forallb (@well_formed_row binary64) (rows_of_table spec_table) = true
   /\ can_write (example_world spec_table true) (output_csv_file "1abc.pdb" "out")
      = true)
  /\ map (@Resi_Potential binary64) (report (rows_of_table spec_table))
     = [4%float; 0%float].
Proof.
  split; [repeat split|].
  pose proof (@potential_sum_regrouped binary64 plain_libraries
                "1abc.pdb" "in.csv" "out" (example_world spec_table true)
                (rows_of_table spec_table)
                eq_refl eq_refl
                (@well_formed_forallb binary64 (rows_of_table spec_table) eq_refl)
                eq_refl)
    as (_ & Hsum & _).
  rewrite Hsum. reflexivity.
Defined.

(** Binary64 addition: key 12 gets [1e16 + -1e16 = 0.0] and key 13 gets
    [1.0], which sum to [1.0], while the potentials of the three input rows
    sum to [(1e16 + 1.0) + -1e16 = 0.0]. *)
Lemma potential_sum_rounded :
  forallb (@well_formed_row binary64) (rows_of_table rounding_table) = true
  /\ @written_records binary64 (rows_of_table rounding_table)
     = Some [[@CStr binary64 "ALA"; CStr "12"; @CFloat binary64 0%float];
             [@CStr binary64 "GLY"; CStr "13"; @CFloat binary64 1%float]]
  /\ map (@potential_of binary64) (rows_of_table rounding_table)
     = [1e16%float; 1%float; (-1e16)%float]
  /\ @py_sum binary64 [0%float; 1%float] = 1%float
  /\ @py_sum binary64 [1e16%float; 1%float; (-1e16)%float] = 0%float
  /\ PrimFloat.eqb 1%float 0%float = false.
Proof. repeat split; vm_compute; reflexivity. Qed.

(** With integers the two sums agree. *)
Example potential_sum_exact :
  forallb (@well_formed_row exact)
          (DictReader [["Resi"; "Resi_Seq"; "Potential"];
                       ["ALA"; "12"; "7"]; ["GLY"; "13"; "-2"]; ["ALA"; "12"; "5"]])
  = true
  /\ @py_sum exact
       (map Resi_Potential
            (report (DictReader [["Resi"; "Resi_Seq"; "Potential"];
                                 ["ALA"; "12"; "7"]; ["GLY"; "13"; "-2"];
                                 ["ALA"; "12"; "5"]])))
     = 10%Z.
Proof.
  split; [reflexivity|].
  rewrite (@report_sum exact Z.add_assoc Z.add_comm Z.add_0_l). reflexivity.
Qed.

(** The rows of section 8 of the specification give the rows it expects. *)
Example specification_rows :
  @written_records binary64 (rows_of_table spec_table)
  = Some [[@CStr binary64 "ALA"; CStr "12"; @CFloat binary64 4%float];
          [@CStr binary64 "GLY"; CStr "13"; @CFloat binary64 0%float]].
Proof. reflexivity. Qed.

(** C3.  For a well-formed input the [Resi_Seq] values of the output rows
    are the [Resi_Seq] values of the input rows, each of them once. *)
Theorem output_keys_are_input_keys {F : PyFloat} {L : Libraries}
    (protein_file protein_bept_csvpath output_dir : string) (w : World)
    (rows : list Row) :
  can_mkdir w (PosixPath.join output_dir ".bept") = true ->
  input_rows protein_bept_csvpath w = Some rows ->
  well_formed rows ->
  can_write w (output_csv_file protein_file output_dir) = true ->
  file_after protein_file protein_bept_csvpath output_dir w
             (output_csv_file protein_file output_dir)
    = Some (csv_writer (csv_header :: map record_of (report rows)))
  /\ NoDup (map Resi_Seq (report rows))
  /\ forall k, k ∈ map Resi_Seq (report rows) <-> k ∈ map (field "Resi_Seq") rows.
Proof.
  intros Hdir Hrows Hwf Hcsv. split; [now apply csv_file_after|].
  rewrite report_keys. split.
  - apply NoDup_first_seen.
  - intros k. apply elem_of_first_seen.
Qed.

Lemma output_keys_are_input_keys_witness :
  (can_mkdir (example_world spec_table true) (PosixPath.join "out" ".bept") = true
   /\ @input_rows binary64 plain_libraries "in.csv" (example_world spec_table true)
      = Some (rows_of_table spec_table)
   /\ forallb (@well_formed_row binary64) (rows_of_table spec_table) = true
   /\ can_write (example_world spec_table true) (output_csv_file "1abc.pdb" "out")
      = true)
  /\ map (@field "Resi_Seq") (rows_of_table spec_table)
     = [Some "12"; Some "12"; Some "13"]
  /\ NoDup (map (@Resi_Seq binary64) (report (rows_of_table spec_table))).
Proof.
  split; [repeat split|]. split; [reflexivity|].
  apply (@output_keys_are_input_keys binary64 plain_libraries
           "1abc.pdb" "in.csv" "out" (example_world spec_table true)
           (rows_of_table spec_table)
           eq_refl eq_refl
           (@well_formed_forallb binary64 (rows_of_table spec_table) eq_refl)
           eq_refl).
Defined.

(** C4.  For a well-formed input the [Resi] of every output row is the
    [Resi] of the last input row with the key of that output row; so, of
    several names under one key, the last one is written. *)
Theorem output_name_is_last_name {F : PyFloat} {L : Libraries}
    (protein_file protein_bept_csvpath output_dir : string) (w : World)
    (rows : list Row) :
  can_mkdir w (PosixPath.join output_dir ".bept") = true ->
  input_rows protein_bept_csvpath w = Some rows ->
  well_formed rows ->
  can_write w (output_csv_file protein_file output_dir) = true ->
  file_after protein_file protein_bept_csvpath output_dir w
             (output_csv_file protein_file output_dir)
    = Some (csv_writer (csv_header :: map record_of (report rows)))
  /\ forall r,
       r ∈ report rows ->
       exists before row after,
         rows = before ++ row :: after
         /\ field "Resi_Seq" row = Resi_Seq r
         /\ Forall (fun row' => field "Resi_Seq" row' <> Resi_Seq r) after
         /\ Resi r = field "Resi" row.
Proof.
  intros Hdir Hrows Hwf Hcsv. split; [now apply csv_file_after|].
  apply report_names.
Qed.

Lemma output_name_is_last_name_witness :
  (can_mkdir (example_world renamed_table true) (PosixPath.join "out" ".bept") = true
   /\ @input_rows binary64 plain_libraries "in.csv" (example_world renamed_table true)
      = Some (rows_of_table renamed_table)
   /\ forallb (@well_formed_row binary64) (rows_of_table renamed_table) = true
   /\ can_write (example_world renamed_table true) (output_csv_file "1abc.pdb" "out")
      = true)
  /\ map (fun row => (field "Resi" row, field "Resi_Seq" row))
         (rows_of_table renamed_table)
     = [(Some "ALA", Some "12"); (Some "GLY", Some "13"); (Some "SER", Some "12")]
  /\ @file_after binary64 plain_libraries "1abc.pdb" "in.csv" "out"
       (example_world renamed_table true) (output_csv_file "1abc.pdb" "out")
     = Some (unlines ["Resi,Resi_Seq,Resi_Potential"; "SER,12,4.0"; "GLY,13,0.5"]).
Proof.
  split; [repeat split|]. split; [reflexivity|].
  destruct (@output_name_is_last_name binary64 plain_libraries
              "1abc.pdb" "in.csv" "out" (example_world renamed_table true)
              (rows_of_table renamed_table)
              eq_refl eq_refl
              (@well_formed_forallb binary64 (rows_of_table renamed_table) eq_refl)
              eq_refl) as [Hfile _].
  rewrite Hfile. reflexivity.
Defined.

(** C5.  For a well-formed input the CSV file gets one row for each distinct
    key, in the order in which the keys first occur in the input, and the
    text table is made from the same rows in the same order. *)
Theorem output_rows_in_first_seen_order {F : PyFloat} {L : Libraries}
    (protein_file protein_bept_csvpath output_dir : string) (w : World)
    (rows : list Row) :
  can_mkdir w (PosixPath.join output_dir ".bept") = true ->
  input_rows protein_bept_csvpath w = Some rows ->
  well_formed rows ->
  can_write w (output_csv_file protein_file output_dir) = true ->
  can_write w (output_tabulated_file protein_file output_dir) = true ->
  file_after protein_file protein_bept_csvpath output_dir w
             (output_csv_file protein_file output_dir)
    = Some (csv_writer (csv_header :: map record_of (report rows)))
  /\ file_after protein_file protein_bept_csvpath output_dir w
                (output_tabulated_file protein_file output_dir)
     = Some (tabulate (map dict_of (report rows)))
  /\ map Resi_Seq (report rows) = first_seen (map (field "Resi_Seq") rows)
  /\ map (map snd) (map dict_of (report rows)) = map record_of (report rows).
Proof.
  intros Hdir Hrows Hwf Hcsv Htxt.
  split; [now apply csv_file_after|].
  split; [now apply txt_file_after|].
  split; [apply report_keys|].
  rewrite map_map. apply map_ext. intros r. apply dict_of_values.
Qed.

Lemma output_rows_in_first_seen_order_witness :
  (can_mkdir (example_world renamed_table true) (PosixPath.join "out" ".bept") = true
   /\ @input_rows binary64 plain_libraries "in.csv" (example_world renamed_table true)
      = Some (rows_of_table renamed_table)
   /\ forallb (@well_formed_row binary64) (rows_of_table renamed_table) = true
   /\ can_write (example_world renamed_table true) (output_csv_file "1abc.pdb" "out")
      = true
   /\ can_write (example_world renamed_table true)
                (output_tabulated_file "1abc.pdb" "out") = true)
  /\ map (@Resi_Seq binary64) (report (rows_of_table renamed_table))
     = [Some "12"; Some "13"].
Proof.
  split; [repeat split|].
  destruct (@output_rows_in_first_seen_order binary64 plain_libraries
              "1abc.pdb" "in.csv" "out" (example_world renamed_table true)
              (rows_of_table renamed_table)
              eq_refl eq_refl
              (@well_formed_forallb binary64 (rows_of_table renamed_table) eq_refl)
              eq_refl eq_refl) as (_ & _ & Hkeys & _).
  rewrite Hkeys. reflexivity.
Defined.

(** C6, as amended.  The identifier [biop_fetch] returns is the file name
    without its trailing [.pdb] when the name ends in [.pdb] and its last
    path component has a character other than a dot before that suffix.  It
    is the file name unchanged otherwise: when the name does not end in
    [.pdb], and when the last component is [.pdb] alone or dots followed by
    [pdb]. *)
Theorem biop_fetch_identifier {F : PyFloat} {L : Libraries} (protein_file : string) :
  protein_id protein_file
    = (if Str.endswith protein_file ".pdb"
       then if Str.all_dots (PosixPath.basename (strip_pdb protein_file))
            then protein_file
            else strip_pdb protein_file
       else protein_file)
  /\ forall w struct ident w',
       biop_fetch protein_file w = (Ok (struct, ident), w') ->
       ident = protein_id protein_file.
Proof.
  split.
  - unfold protein_id.
    destruct (Str.endswith protein_file ".pdb") eqn:Hends; [|reflexivity].
    destruct (endswith_inv _ _ Hends) as [r ->].
    rewrite strip_pdb_app. apply splitext_root_pdb.
  - intros w struct ident w'. unfold biop_fetch, bind, read_text, lift, ret.
    destruct (files w !! protein_file); [|discriminate].
    destruct (get_structure _ _); [|discriminate]. now intros [= _ <- _].
Qed.

(** The file name [.pdb] ends in [.pdb], yet it is its own identifier. *)
Lemma biop_fetch_identifier_of_hidden_file :
  Str.endswith ".pdb" ".pdb" = true
  /\ strip_pdb ".pdb" = ""
  /\ fst (run_biop_fetch ".pdb" hidden_file_world) = Ok ([atom_record], ".pdb").
Proof. repeat split. Qed.

(** C7, as amended.  When some data row of the input CSV has no [Potential]
    field, or one that does not convert to a number, the [try] block of
    [get_surface_resi] raises before the returned path is set.  The function
    then returns the empty path with the error flag true when the error line
    is printed; when printing the error line raises, as the console does for
    a [Potential] field that holds a closing markup tag, the function raises
    that exception to its caller.  In particular this holds for a CSV without
    the [Potential] column that has a data row. *)
Theorem get_surface_resi_bad_potential {F : PyFloat} {L : Libraries}
    (protein_file protein_bept_csvpath output_dir : string) (w : World)
    (text : string) (row : Row) :
  files w !! protein_bept_csvpath = Some text ->
  In row (DictReader (fst (csv_reader text))) ->
  potential_converts row = false ->
  exists e,
    fst (write_reports protein_file protein_bept_csvpath output_dir w) = Raise e
    /\ returned protein_file protein_bept_csvpath output_dir w
       = match markup_error (Failure e) with
         | None => Ok ("", true)
         | Some e' => Raise e'
         end.
Proof.
  intros Hfile Hin Hrow.
  destruct (write_reports_rejects protein_file _ output_dir _ _ _ Hfile Hin Hrow)
    as [e He].
  exists e. split; [exact He|].
  rewrite returned_cases.
  destruct (write_reports _ _ _ w) as [[[]|e'] w1]; [discriminate|].
  simpl in He. injection He as ->. reflexivity.
Qed.

Lemma get_surface_resi_bad_potential_witness :
  (files (example_world no_potential_table true) !! "in.csv"
   = Some (unlines no_potential_table)
   /\ In [("Resi", Some "ALA"); ("Resi_Seq", Some "12")]
         (DictReader (fst (plain_csv_reader (unlines no_potential_table))))
   /\ @potential_converts binary64 [("Resi", Some "ALA"); ("Resi_Seq", Some "12")]
      = false)
  /\ exists e,
       fst (@write_reports binary64 plain_libraries "1abc.pdb" "in.csv" "out"
              (example_world no_potential_table true)) = Raise e
       /\ @returned binary64 plain_libraries "1abc.pdb" "in.csv" "out"
            (example_world no_potential_table true)
          = match plain_markup_error (Failure e) with
            | None => Ok ("", true)
            | Some e' => Raise e'
            end.
Proof.
  split; [repeat split; left; reflexivity|].
  apply (@get_surface_resi_bad_potential binary64 plain_libraries
           "1abc.pdb" "in.csv" "out" (example_world no_potential_table true)
           (unlines no_potential_table)
           [("Resi", Some "ALA"); ("Resi_Seq", Some "12")]).
  - reflexivity.
  - left. reflexivity.
  - reflexivity.
Defined.

(** A CSV that holds the header [Resi,Resi_Seq] and nothing else has no
    [Potential] column, and the call succeeds. *)
Lemma get_surface_resi_header_without_potential :
  fst (plain_csv_reader (unlines header_only_table)) = [["Resi"; "Resi_Seq"]]
  /\ @returned binary64 plain_libraries "1abc.pdb" "in.csv" "out"
       (example_world header_only_table true)
     = Ok ("out/1abc.pdb_surface_data.txt", false).
Proof. split; vm_compute; reflexivity. Qed.

(** The run of the table without the [Potential] column, and that of a
    potential that does not convert: each stops at its row. *)
Example get_surface_resi_missing_potential :
  run_get_surface_resi "1abc.pdb" "in.csv" "out" (example_world no_potential_table true)
  = (Ok ("", true),
     {| files := files (example_world no_potential_table true);
        can_mkdir := can_mkdir (example_world no_potential_table true);
        can_write := can_write (example_world no_potential_table true);
        console := [@Failure binary64 (KeyError (Some "Potential"))] |}).
Proof. reflexivity. Qed.

Example get_surface_resi_unparsable_potential :
  run_get_surface_resi "1abc.pdb" "in.csv" "out" (example_world unparsable_table true)
  = (Ok ("", true),
     {| files := files (example_world unparsable_table true);
        can_mkdir := can_mkdir (example_world unparsable_table true);
        can_write := can_write (example_world unparsable_table true);
        console := [@Failure binary64 (ValueError "high")] |}).
Proof. reflexivity. Qed.

(** C8.  Once [get_surface_resi] has written the CSV file, the file holds
    the report when the function returns, whatever happens afterwards: an
    exception raised while the text table is written or by [calc_sasa] leaves
    it in place, and no file that was there on entry is removed. *)
Theorem get_surface_resi_keeps_csv {F : PyFloat} {L : Libraries}
    (protein_file protein_bept_csvpath output_dir : string) (w : World)
    (rows : list Row) :
  can_mkdir w (PosixPath.join output_dir ".bept") = true ->
  input_rows protein_bept_csvpath w = Some rows ->
  well_formed rows ->
  can_write w (output_csv_file protein_file output_dir) = true ->
  file_after protein_file protein_bept_csvpath output_dir w
             (output_csv_file protein_file output_dir)
    = Some (csv_writer (csv_header :: map record_of (report rows)))
  /\ forall p,
       is_Some (files w !! p) ->
       is_Some (file_after protein_file protein_bept_csvpath output_dir w p).
Proof.
  intros Hdir Hrows Hwf Hcsv. split.
  - now apply csv_file_after.
  - intros p. apply get_surface_resi_keeps.
Qed.

Lemma get_surface_resi_keeps_csv_witness :
  (can_mkdir (example_world spec_table false) (PosixPath.join "out" ".bept") = true
   /\ @input_rows binary64 plain_libraries "in.csv" (example_world spec_table false)
      = Some (rows_of_table spec_table)
   /\ forallb (@well_formed_row binary64) (rows_of_table spec_table) = true
   /\ can_write (example_world spec_table false) (output_csv_file "1abc.pdb" "out")
      = true)
  /\ @returned binary64 plain_libraries "1abc.pdb" "in.csv" "out"
       (example_world spec_table false)
     = Ok ("out/1abc.pdb_surface_data.txt", true)
  /\ @file_after binary64 plain_libraries "1abc.pdb" "in.csv" "out"
       (example_world spec_table false) "out/.bept/1abc.pdb_surface_data.csv"
     = Some (plain_csv_writer
               (csv_header :: map record_of (report (rows_of_table spec_table)))).
Proof.
  split; [repeat split|]. split; [reflexivity|].
  apply (@get_surface_resi_keeps_csv binary64 plain_libraries
           "1abc.pdb" "in.csv" "out" (example_world spec_table false)
           (rows_of_table spec_table)
           eq_refl eq_refl
           (@well_formed_forallb binary64 (rows_of_table spec_table) eq_refl)
           eq_refl).
Defined.

(** The CSV file also stays when the text table cannot be opened. *)
Example get_surface_resi_keeps_csv_without_table :
  @returned binary64 plain_libraries "1abc.pdb" "in.csv" "out" locked_table_world
  = Ok ("", true)
  /\ @file_after binary64 plain_libraries "1abc.pdb" "in.csv" "out"
       locked_table_world "out/.bept/1abc.pdb_surface_data.csv"
     = Some (unlines ["Resi,Resi_Seq,Resi_Potential"; "ALA,12,4.0"; "GLY,13,0.0"])
  /\ @file_after binary64 plain_libraries "1abc.pdb" "in.csv" "out"
       locked_table_world "out/1abc.pdb_surface_data.txt"
     = None.
Proof. repeat split. Qed.

(** C9.  When [get_surface_resi] returns the error flag false, the returned
    path is [os.path.join(output_dir, protein_file + "_surface_data.txt")],
    it is not empty, and the file at that path has been written. *)
Theorem get_surface_resi_success_path {F : PyFloat} {L : Libraries}
    (protein_file protein_bept_csvpath output_dir : string) (w : World)
    (path : string) :
  returned protein_file protein_bept_csvpath output_dir w = Ok (path, false) ->
  path = PosixPath.join output_dir (protein_file +:+ "_surface_data.txt")
  /\ path <> ""
  /\ is_Some (file_after protein_file protein_bept_csvpath output_dir w path).
Proof.
  unfold file_after. rewrite files_after_write_reports, returned_cases.
  destruct (write_reports _ _ _ w) as [[[]|e] w1] eqn:Hwrite; simpl.
  - intros Hret.
    assert (Hpath : path = output_tabulated_file protein_file output_dir).
    { destruct (fst (announce protein_file w1)) as [[]|e].
      - now injection Hret as <-.
      - apply caught_ok in Hret as [_ [= _]]. }
    subst path. split; [reflexivity|]. split.
    + apply output_tabulated_file_not_empty.
    + now apply (write_reports_ok_table _ _ _ _ _ Hwrite).
  - intros Hret. apply caught_ok in Hret as [_ [= _]].
Qed.

Lemma get_surface_resi_success_path_witness :
  @returned binary64 plain_libraries "1abc.pdb" "in.csv" "out"
    (example_world spec_table true)
  = Ok ("out/1abc.pdb_surface_data.txt", false)
  /\ is_Some (@file_after binary64 plain_libraries "1abc.pdb" "in.csv" "out"
                (example_world spec_table true) "out/1abc.pdb_surface_data.txt").
Proof.
  split; [reflexivity|].
  apply (@get_surface_resi_success_path binary64 plain_libraries
           "1abc.pdb" "in.csv" "out" (example_world spec_table true)
           "out/1abc.pdb_surface_data.txt" eq_refl).
Defined.





(** * Further facts about the model *)

Section FootprintFacts.
Context {F : PyFloat} {L : Libraries}.

Lemma same_permissions_refl (w : World) : same_permissions w w.
Proof. now split. Qed.

Lemma same_permissions_trans (w1 w2 w3 : World) :
  same_permissions w1 w2 -> same_permissions w2 w3 -> same_permissions w1 w3.
Proof. intros [? ?] [? ?]. split; congruence. Qed.

Lemma same_permissions_sym (w1 w2 : World) :
  same_permissions w1 w2 -> same_permissions w2 w1.
Proof. intros [? ?]. now split. Qed.

Lemma lookup_union_agree (delta m1 m2 : gmap string string) (p : string) :
  m1 !! p = m2 !! p -> (delta ∪ m1) !! p = (delta ∪ m2) !! p.
Proof. intros Heq. rewrite !lookup_union, Heq. reflexivity. Qed.

Lemma footprint_weaken {A : Type} (reads reads' writes writes' : string -> Prop)
    (m : Py World A) :
  (forall p, reads p -> reads' p) ->
  (forall p, writes p -> writes' p) ->
  footprint reads writes m -> footprint reads' writes' m.
Proof.
  intros Hr Hw Hm w1 w2 Hperm Hfiles.
  destruct (Hm w1 w2 Hperm (fun p Hp => Hfiles p (Hr p Hp)))
    as (Hres & Hp1 & Hp2 & delta & Hdelta & Hf1 & Hf2).
  split; [exact Hres|]. split; [exact Hp1|]. split; [exact Hp2|].
  exists delta. split; [|now split].
  intros p Hp. apply Hdelta. intros Hp'. apply Hp. now apply Hw.
Qed.

Lemma footprint_bind {A B : Type} (reads writes : string -> Prop)
    (m : Py World A) (k : A -> Py World B) :
  footprint reads writes m ->
  (forall a, footprint reads writes (k a)) ->
  footprint reads writes (bind m k).
Proof.
  intros Hm Hk w1 w2 Hperm Hfiles. unfold bind.
  destruct (Hm w1 w2 Hperm Hfiles) as (Hres & Hp1 & Hp2 & delta & Hdelta & Hf1 & Hf2).
  destruct (m w1) as [r1 w1'], (m w2) as [r2 w2']. simpl in *. subst r2.
  destruct r1 as [a|e].
  - assert (Hperm' : same_permissions w1' w2').
    { apply (same_permissions_trans _ w1); [now apply same_permissions_sym|].
      now apply (same_permissions_trans _ w2). }
    assert (Hfiles' : forall p, reads p -> files w1' !! p = files w2' !! p).
    { intros p Hp. rewrite Hf1, Hf2. apply lookup_union_agree. now apply Hfiles. }
    destruct (Hk a w1' w2' Hperm' Hfiles')
      as (Hres' & Hp1' & Hp2' & delta' & Hdelta' & Hf1' & Hf2').
    split; [exact Hres'|].
    split; [now apply (same_permissions_trans _ w1')|].
    split; [now apply (same_permissions_trans _ w2')|].
    exists (delta' ∪ delta). split; [|split].
    + intros p Hp. apply lookup_union_None. split; [now apply Hdelta' | now apply Hdelta].
    + rewrite Hf1', Hf1. apply map_union_assoc.
    + rewrite Hf2', Hf2. apply map_union_assoc.
  - simpl. split; [reflexivity|]. split; [exact Hp1|]. split; [exact Hp2|].
    exists delta. now split.
Qed.

Lemma footprint_lift {A : Type} (reads writes : string -> Prop) (r : result A) :
  footprint reads writes (lift r).
Proof.
  intros w1 w2 Hperm Hfiles. simpl. nothing_written.
Qed.

Lemma footprint_print (reads writes : string -> Prop) (m : message) :
  footprint reads writes (print m).
Proof.
  intros w1 w2 Hperm Hfiles. unfold print.
  destruct (markup_error m); simpl; nothing_written.
Qed.

Lemma footprint_makedirs (reads writes : string -> Prop) (path : string) :
  footprint reads writes (makedirs path).
Proof.
  intros w1 w2 Hperm Hfiles. unfold makedirs.
  destruct Hperm as [Hdir Hwrite]. rewrite Hdir.
  destruct (can_mkdir w2 path); simpl;
    nothing_written.
Qed.

Lemma footprint_read_text (reads writes : string -> Prop) (path : string) :
  reads path -> footprint reads writes (read_text path).
Proof.
  intros Hpath w1 w2 Hperm Hfiles. unfold read_text.
  rewrite (Hfiles path Hpath).
  destruct (files w2 !! path); simpl;
    nothing_written.
Qed.

Lemma footprint_write_text (reads writes : string -> Prop) (path text : string) :
  writes path -> footprint reads writes (write_text path text).
Proof.
  intros Hpath w1 w2 Hperm Hfiles. unfold write_text.
  destruct Hperm as [Hdir Hwrite]. rewrite Hwrite.
  destruct (can_write w2 path); simpl.
  - split; [reflexivity|]. split; [now split|]. split; [now split|].
    exists {[path := text]}.
    split; [|split; apply insert_union_singleton_l].
    intros p Hp. apply lookup_singleton_ne. intros ->. now apply Hp.
  - nothing_written.
Qed.

Lemma footprint_calc_sasa (reads writes : string -> Prop) (protein_file : string) :
  reads protein_file -> footprint reads writes (calc_sasa protein_file).
Proof.
  intros Hpath. unfold calc_sasa, biop_fetch.
  apply footprint_bind.
  - apply footprint_bind; [now apply footprint_read_text | intros text].
    apply footprint_bind; [apply footprint_lift | intros struct].
    apply (footprint_lift reads writes (Ok _)).
  - intros fetched. apply footprint_bind; [apply footprint_lift | intros sasa].
    apply footprint_print.
Qed.

Lemma footprint_announce (reads writes : string -> Prop) (protein_file : string) :
  reads protein_file -> footprint reads writes (announce protein_file).
Proof.
  intros Hpath. unfold announce.
  apply footprint_bind; [apply footprint_print | intros _].
  now apply footprint_calc_sasa.
Qed.

Lemma footprint_write_reports (reads writes : string -> Prop)
    (protein_file protein_bept_csvpath output_dir : string) :
  reads protein_bept_csvpath ->
  writes (output_csv_file protein_file output_dir) ->
  writes (output_tabulated_file protein_file output_dir) ->
  footprint reads writes (write_reports protein_file protein_bept_csvpath output_dir).
Proof.
  intros Hcsv Hout Htxt. unfold write_reports.
  apply footprint_bind; [apply footprint_makedirs | intros _].
  apply footprint_bind.
  - unfold read_potentials.
    apply footprint_bind; [now apply footprint_read_text | intros text].
    destruct (csv_reader text) as [records stop].
    apply footprint_bind; [apply footprint_lift | intros totals].
    destruct stop; [apply (footprint_lift _ _ (Raise _)) | apply (footprint_lift _ _ (Ok _))].
  - intros totals. apply footprint_bind.
    + unfold write_csv. destruct (csv_records _ _) as [recs stop].
      apply footprint_bind; [now apply footprint_write_text | intros _].
      destruct stop; [apply (footprint_lift _ _ (Raise _)) | apply (footprint_lift _ _ (Ok _))].
    + intros _. apply footprint_bind; [apply footprint_lift | intros data].
      now apply footprint_write_text.
Qed.

Lemma footprint_try_statements (protein_file protein_bept_csvpath output_dir : string) :
  footprint (fun p => p = protein_bept_csvpath \/ p = protein_file)
            (fun p => p = output_csv_file protein_file output_dir
                      \/ p = output_tabulated_file protein_file output_dir)
            (try_statements protein_file protein_bept_csvpath output_dir).
Proof.
  unfold try_statements. apply footprint_bind.
  - apply footprint_write_reports; auto.
  - intros _. apply footprint_announce. now right.
Qed.

(** The function in terms of the statements of its [try] block. *)
Lemma returned_try_statements (protein_file protein_bept_csvpath output_dir : string)
    (w : World) :
  returned protein_file protein_bept_csvpath output_dir w
  = match fst (write_reports protein_file protein_bept_csvpath output_dir w),
          fst (try_statements protein_file protein_bept_csvpath output_dir w) with
    | Raise e, _ => caught "" e
    | Ok _, Raise e => caught (output_tabulated_file protein_file output_dir) e
    | Ok _, Ok _ => Ok (output_tabulated_file protein_file output_dir, false)
    end.
Proof.
  rewrite returned_cases. unfold try_statements, bind.
  destruct (write_reports _ _ _ w) as [[[]|e] w1]; [|reflexivity]. simpl.
  destruct (announce _ w1) as [[[]|e] w2]; reflexivity.
Qed.

Lemma files_after_try_statements (protein_file protein_bept_csvpath output_dir : string)
    (w : World) :
  files (snd (get_surface_resi protein_file protein_bept_csvpath output_dir w))
  = files (snd (try_statements protein_file protein_bept_csvpath output_dir w)).
Proof.
  rewrite get_surface_resi_cases. unfold try_statements, bind.
  destruct (write_reports _ _ _ w) as [[[]|e] w1]; [|apply handled_files].
  destruct (announce _ w1) as [[[]|e] w2]; [reflexivity | apply handled_files].
Qed.

End FootprintFacts.

Section OutputPathFacts.

Lemma length_join (a b : string) :
  (String.length b <= String.length (PosixPath.join a b))%nat.
Proof.
  destruct (join_suffix a b) as [pre ->]. rewrite str_length_app. lia.
Qed.

Lemma protein_file_is_no_output (protein_file output_dir : string) :
  protein_file <> output_csv_file protein_file output_dir
  /\ protein_file <> output_tabulated_file protein_file output_dir.
Proof.
  split; intros Heq; apply (f_equal String.length) in Heq.
  - pose proof (length_join (PosixPath.join output_dir ".bept")
                  (protein_file +:+ "_surface_data.csv")) as Hlen.
    unfold output_csv_file in Heq. rewrite <- Heq, str_length_app in Hlen.
    simpl in Hlen. lia.
  - pose proof (length_join output_dir (protein_file +:+ "_surface_data.txt")) as Hlen.
    unfold output_tabulated_file in Heq. rewrite <- Heq, str_length_app in Hlen.
    simpl in Hlen. lia.
Qed.

End OutputPathFacts.

Section SasaFacts.
Context {F : PyFloat} {L : Libraries}.

Lemma calc_sasa_raise_inv (protein_file : string) (w w' : World) (e : exn) :
  calc_sasa protein_file w = (Raise e, w') -> w' = w.
Proof.
  unfold calc_sasa, biop_fetch, bind, read_text, lift, ret, print.
  destruct (files w !! protein_file) as [text|]; [|now intros [= _ <-]].
  destruct (get_structure (protein_id protein_file) text) as [s|e'];
    [|now intros [= _ <-]].
  simpl. destruct (shrake_rupley s) as [x|e']; [|now intros [= _ <-]].
  destruct (markup_error _); [now intros [= _ <-] | discriminate].
Qed.

Lemma calc_sasa_ok_inv (protein_file : string) (w w' : World) :
  calc_sasa protein_file w = (Ok tt, w') ->
  exists text s x,
    files w !! protein_file = Some text
    /\ get_structure (protein_id protein_file) text = Ok s
    /\ shrake_rupley s = Ok x
    /\ markup_error (SasaValue protein_file (round2 x)) = None
    /\ w' = printed (SasaValue protein_file (round2 x)) w.
Proof.
  unfold calc_sasa, biop_fetch, bind, read_text, lift, ret, print.
  destruct (files w !! protein_file) as [text|]; [|discriminate].
  destruct (get_structure (protein_id protein_file) text) as [s|e'] eqn:Hparse;
    [|discriminate].
  simpl. destruct (shrake_rupley s) as [x|e'] eqn:Hsasa; [|discriminate].
  destruct (markup_error _) eqn:Hprint; [discriminate|].
  intros [= <-]. now exists text, s, x.
Qed.

Lemma calc_sasa_ok (protein_file text : string) (s : structure) (x : num)
    (w : World) :
  files w !! protein_file = Some text ->
  get_structure (protein_id protein_file) text = Ok s ->
  shrake_rupley s = Ok x ->
  markup_error (SasaValue protein_file (round2 x)) = None ->
  calc_sasa protein_file w = (Ok tt, printed (SasaValue protein_file (round2 x)) w).
Proof.
  intros Hfile Hparse Hsasa Hprint.
  unfold calc_sasa, biop_fetch, bind, read_text, lift, ret, print.
  rewrite Hfile, Hparse. simpl. now rewrite Hsasa, Hprint.
Qed.

Lemma write_reports_console (protein_file protein_bept_csvpath output_dir : string)
    (w : World) :
  console (snd (write_reports protein_file protein_bept_csvpath output_dir w))
  = console w.
Proof.
  unfold write_reports, read_potentials, write_csv, bind, makedirs, read_text,
    write_text, lift, ret, raise.
  repeat case_match; simplify_eq; reflexivity.
Qed.

End SasaFacts.

Section LoopFacts.
Context {F : PyFloat}.

Lemma sum_rows_app (rows1 rows2 : list Row) (acc : Totals) :
  sum_rows acc (rows1 ++ rows2)
  = rbind (sum_rows acc rows1) (fun acc' => sum_rows acc' rows2).
Proof.
  revert acc. induction rows1 as [|row rows1 IH]; intros acc; [reflexivity|].
  simpl. destruct (add_row acc row) as [acc'|e]; simpl; [apply IH | reflexivity].
Qed.

(** The exception of a row does not depend on the sums so far. *)
Lemma add_row_raise_any (acc acc' : Totals) (row : Row) (e : exn) :
  add_row acc row = Raise e -> add_row acc' row = Raise e.
Proof.
  unfold add_row, getitem.
  destruct (PyDict.get row "Resi_Seq") as [key|]; simpl; [|auto].
  destruct (PyDict.get row "Potential") as [raw|]; simpl; [|auto].
  destruct (py_float raw) as [x|e']; simpl; [|auto].
  destruct (PyDict.get row "Resi") as [name|]; simpl; [discriminate | auto].
Qed.

Lemma sum_rows_first_bad (good rest : list Row) (bad : Row) :
  well_formed good ->
  well_formed_row bad = false ->
  exists e,
    add_row no_totals bad = Raise e
    /\ sum_rows no_totals (good ++ bad :: rest) = Raise e.
Proof.
  intros Hgood Hbad.
  destruct (add_row_rejects (fold_left add_fields good no_totals) bad Hbad) as [e He].
  exists e. split; [now apply (add_row_raise_any _ _ _ _ He)|].
  rewrite sum_rows_app, (sum_rows_well_formed _ _ Hgood). simpl. now rewrite He.
Qed.

Lemma keys_set {V : Type} (d : list (option string * V)) (k : option string) (v : V) :
  PyDict.keys (PyDict.set d k v)
  = if decide (k ∈ PyDict.keys d) then PyDict.keys d else PyDict.keys d ++ [k].
Proof.
  unfold PyDict.keys. induction d as [|[k0 v0] d IH].
  - destruct (decide (k ∈ map fst [])) as [Hin|_]; [inversion Hin | reflexivity].
  - cbn [PyDict.set map fst]. destruct (decide (k0 = k)) as [->|Hne].
    + destruct (decide (k ∈ k :: map fst d)) as [_|Hout]; [reflexivity|].
      exfalso. apply Hout. left.
    + cbn [map fst]. rewrite IH.
      destruct (decide (k ∈ map fst d)) as [Hin|Hin];
        destruct (decide (k ∈ k0 :: map fst d)) as [Hin'|Hin']; try reflexivity.
      * exfalso. apply Hin'. now right.
      * exfalso. apply elem_of_cons in Hin' as [->|?]; [now apply Hne | now apply Hin].
Qed.

Lemma get_of_key {V : Type} (d : list (option string * V)) (k : option string) :
  k ∈ PyDict.keys d -> is_Some (PyDict.get d k).
Proof.
  unfold PyDict.keys. induction d as [|[k0 v0] d IH]; [intros Hin; inversion Hin|].
  cbn [map fst PyDict.get]. intros Hin.
  destruct (decide (k0 = k)) as [->|Hne]; [eauto|].
  apply IH. apply elem_of_cons in Hin as [->|?]; [now exfalso | assumption].
Qed.

Lemma add_row_keeps_keys (acc totals : Totals) (row : Row) :
  PyDict.keys (resi_potentials acc) = PyDict.keys (resi_names acc) ->
  add_row acc row = Ok totals ->
  PyDict.keys (resi_potentials totals) = PyDict.keys (resi_names totals).
Proof.
  intros Hkeys. unfold add_row, getitem.
  destruct (PyDict.get row "Resi_Seq") as [key|]; simpl; [|discriminate].
  destruct (PyDict.get row "Potential") as [raw|]; simpl; [|discriminate].
  destruct (py_float raw) as [x|e']; simpl; [|discriminate].
  destruct (PyDict.get row "Resi") as [name|]; simpl; [|discriminate].
  intros [= <-]. cbn [resi_potentials resi_names]. unfold add_potential.
  rewrite !keys_set, Hkeys. reflexivity.
Qed.

Lemma sum_rows_keeps_keys (rows : list Row) (acc totals : Totals) :
  PyDict.keys (resi_potentials acc) = PyDict.keys (resi_names acc) ->
  sum_rows acc rows = Ok totals ->
  PyDict.keys (resi_potentials totals) = PyDict.keys (resi_names totals).
Proof.
  revert acc. induction rows as [|row rows IH]; intros acc Hkeys Hsum; simpl in Hsum.
  - now injection Hsum as <-.
  - destruct (add_row acc row) as [acc'|e] eqn:Hrow; [|discriminate].
    simpl in Hsum. apply (IH acc'); [|exact Hsum].
    now apply (add_row_keeps_keys acc acc' row).
Qed.

Lemma csv_records_complete (names : list (option string * option string))
    (items : list (option string * num)) :
  (forall k, k ∈ PyDict.keys items -> k ∈ PyDict.keys names) ->
  snd (csv_records names items) = None
  /\ table_data names items
     = Ok (map (fun r => [("Resi", nth 0 r CNone); ("Resi_Seq", nth 1 r CNone);
                          ("Resi_Potential", nth 2 r CNone)])
               (fst (csv_records names items)))
  /\ length (fst (csv_records names items)) = length items.
Proof.
  intros Hsub. induction items as [|[k x] items IH]; [now repeat split|].
  cbn [csv_records table_data].
  destruct (get_of_key names k) as [name ->]; [apply Hsub; left|].
  destruct IH as (Hstop & Hdata & Hlen); [intros k' Hk'; apply Hsub; now right|].
  destruct (csv_records names items) as [written stop]. simpl in *. subst stop.
  rewrite Hdata. simpl. now rewrite Hlen.
Qed.

End LoopFacts.

Section SuccessFacts.
Context {F : PyFloat} {L : Libraries}.

Lemma write_reports_ok_inv (protein_file protein_bept_csvpath output_dir : string)
    (w w1 : World) :
  write_reports protein_file protein_bept_csvpath output_dir w = (Ok tt, w1) ->
  can_mkdir w (PosixPath.join output_dir ".bept") = true
  /\ (exists rows, input_rows protein_bept_csvpath w = Some rows /\ well_formed rows)
  /\ can_write w (output_csv_file protein_file output_dir) = true
  /\ can_write w (output_tabulated_file protein_file output_dir) = true
  /\ files w1 !! protein_file = files w !! protein_file.
Proof.
  destruct (protein_file_is_no_output protein_file output_dir) as [Hne1 Hne2].
  unfold write_reports, bind, makedirs, input_rows.
  destruct (can_mkdir w _) eqn:Hdir; [|discriminate].
  unfold read_potentials, bind, read_text, lift.
  destruct (files w !! protein_bept_csvpath) as [text|]; [|discriminate].
  destruct (csv_reader text) as [records stop].
  destruct (sum_rows no_totals (DictReader records)) as [totals|e] eqn:Hsum;
    [|discriminate].
  destruct stop; [discriminate|]. unfold ret, write_csv, bind.
  destruct (csv_records _ _) as [recs stop']. unfold write_text at 1.
  destruct (can_write w (output_csv_file protein_file output_dir)) eqn:Hcsv;
    [|discriminate].
  destruct stop'; [discriminate|]. unfold ret.
  destruct (table_data _ _) as [data|e]; [|discriminate].
  unfold write_text. simpl can_write.
  destruct (can_write w (output_tabulated_file protein_file output_dir)) eqn:Htxt;
    [|discriminate].
  intros [= <-]. split; [reflexivity|]. split.
  - exists (DictReader records). split; [reflexivity|].
    now apply sum_rows_inv in Hsum as [Hwf _].
  - split; [reflexivity|]. split; [reflexivity|]. simpl.
    rewrite !lookup_insert_ne by congruence. reflexivity.
Qed.

End SuccessFacts.

Section ReportShapeFacts.
Context {F : PyFloat}.

Lemma written_records_report (rows : list Row) :
  well_formed rows -> written_records rows = Some (map record_of (report rows)).
Proof.
  intros Hwf. destruct (report_written rows Hwf) as (totals & Hsum & Hcsv & _).
  unfold written_records. now rewrite Hsum, Hcsv.
Qed.

Lemma filter_all {A : Type} (P : A -> Prop) `{forall x, Decision (P x)} (l : list A) :
  (forall x, x ∈ l -> P x) -> filter P l = l.
Proof.
  induction l as [|x l IH]; intros Hall; [reflexivity|].
  rewrite filter_cons_True by (apply Hall; left).
  f_equal. apply IH. intros y Hy. apply Hall. now right.
Qed.

Lemma filter_none {A : Type} (P : A -> Prop) `{forall x, Decision (P x)} (l : list A) :
  (forall x, x ∈ l -> ~ P x) -> filter P l = [].
Proof.
  induction l as [|x l IH]; intros Hall; [reflexivity|].
  rewrite filter_cons_False by (apply Hall; left).
  apply IH. intros y Hy. apply Hall. now right.
Qed.

Lemma first_seen_NoDup (l : list (option string)) : NoDup l -> first_seen l = l.
Proof.
  induction 1 as [|k l Hk _ IH]; [reflexivity|].
  simpl. rewrite IH. f_equal. apply filter_all.
  intros k' Hk' ->. now apply Hk.
Qed.

Lemma rows_of_unique (rows : list Row) (row : Row) :
  NoDup (map (field "Resi_Seq") rows) ->
  row ∈ rows ->
  rows_of (field "Resi_Seq" row) rows = [row].
Proof.
  unfold rows_of. induction rows as [|row0 rows IH]; intros Hnd Hin;
    [inversion Hin|].
  cbn [map] in Hnd. apply NoDup_cons in Hnd as [Hout Hnd].
  apply elem_of_cons in Hin as [->|Hin].
  - rewrite filter_cons_True by reflexivity. f_equal.
    apply filter_none. intros row' Hrow' Heq. apply Hout.
    rewrite <- Heq. apply list_elem_of_fmap. now exists row'.
  - rewrite filter_cons_False; [now apply IH|].
    intros Heq. apply Hout. rewrite Heq. apply list_elem_of_fmap. now exists row.
Qed.

Lemma report_distinct (rows : list Row) :
  NoDup (map (field "Resi_Seq") rows) ->
  report rows
  = map (fun row => {| Resi := field "Resi" row;
                       Resi_Seq := field "Resi_Seq" row;
                       Resi_Potential := add zero (potential_of row) |})
        rows.
Proof.
  intros Hnd. unfold report. rewrite (first_seen_NoDup _ Hnd), map_map.
  apply map_ext_in. intros row Hin. apply list_elem_of_In in Hin.
  unfold key_name, key_total. rewrite (rows_of_unique rows row Hnd Hin).
  reflexivity.
Qed.

Lemma report_snoc (rows : list Row) (row : Row) :
  report (rows ++ [row])
  = if decide (field "Resi_Seq" row ∈ map (field "Resi_Seq") rows)
    then map (fun r =>
                if decide (Resi_Seq r = field "Resi_Seq" row)
                then {| Resi := field "Resi" row;
                        Resi_Seq := Resi_Seq r;
                        Resi_Potential := add (Resi_Potential r) (potential_of row) |}
                else r)
             (report rows)
    else report rows
         ++ [{| Resi := field "Resi" row;
                Resi_Seq := field "Resi_Seq" row;
                Resi_Potential := add zero (potential_of row) |}].
Proof.
  unfold report. rewrite map_app. cbn [map]. rewrite first_seen_snoc.
  set (k := field "Resi_Seq" row). set (keys := map (field "Resi_Seq") rows).
  destruct (decide (k ∈ keys)) as [Hin|Hout].
  - rewrite map_map. apply map_ext. intros k'. cbn [Resi_Seq Resi_Potential].
    rewrite key_total_snoc, key_name_snoc. fold k.
    destruct (decide (k = k')) as [->|Hne].
    + rewrite decide_True by reflexivity. reflexivity.
    + rewrite decide_False by congruence. reflexivity.
  - rewrite map_app. cbn [map]. f_equal.
    + apply map_ext_in. intros k' Hk'. apply list_elem_of_In in Hk'.
      rewrite key_total_snoc, key_name_snoc. fold k.
      rewrite !decide_False; [reflexivity| |]; intros ->; apply Hout;
        now apply elem_of_first_seen.
    + rewrite key_total_snoc, key_name_snoc. fold k.
      rewrite !decide_True by reflexivity.
      unfold key_total. rewrite (rows_of_absent k rows Hout). reflexivity.
Qed.

End ReportShapeFacts.

Section JoinFacts.

Lemma startswith_app (s t : string) :
  Str.startswith t "/" = false ->
  Str.startswith (s +:+ t) "/" = Str.startswith s "/".
Proof.
  intros Ht. destruct s as [|c s]; [exact Ht|].
  rewrite str_app_cons. unfold Str.startswith. cbn [String.prefix].
  destruct (ascii_dec "/" c); [|reflexivity].
  transitivity true; [destruct (s +:+ t) | destruct s]; reflexivity.
Qed.

Lemma endswith_last_char (s : string) (c : ascii) :
  Str.endswith s (String c "") = true -> Str.last_char s = Some c.
Proof.
  intros Hends. destruct (endswith_inv _ _ Hends) as [r ->].
  now rewrite last_char_app.
Qed.

Lemma join_relative (a b : string) :
  Str.startswith b "/" = false ->
  PosixPath.join a b = directory_prefix a +:+ b.
Proof.
  intros Hb. unfold PosixPath.join, directory_prefix. rewrite Hb.
  destruct (String.eqb a "" || Str.endswith a "/"); [reflexivity|].
  now rewrite str_app_assoc.
Qed.

Lemma directory_prefix_bept (a : string) :
  directory_prefix (directory_prefix a +:+ ".bept") = directory_prefix a +:+ ".bept/".
Proof.
  unfold directory_prefix at 1.
  replace (String.eqb (directory_prefix a +:+ ".bept") "") with false.
  - destruct (Str.endswith (directory_prefix a +:+ ".bept") "/") eqn:Hends.
    + apply endswith_last_char in Hends.
      rewrite last_char_app in Hends by discriminate. discriminate.
    + simpl. now rewrite str_app_assoc.
  - symmetry. apply String.eqb_neq. intros Heq.
    apply (f_equal String.length) in Heq. rewrite str_length_app in Heq.
    simpl in Heq. lia.
Qed.

End JoinFacts.

Section FrameFacts.
Context {F : PyFloat} {L : Libraries}.

Lemma write_reports_all_or_nothing
    (protein_file protein_bept_csvpath output_dir : string) (w : World) :
  files (snd (write_reports protein_file protein_bept_csvpath output_dir w)) = files w
  \/ (can_mkdir w (PosixPath.join output_dir ".bept") = true
      /\ can_write w (output_csv_file protein_file output_dir) = true
      /\ exists rows,
           input_rows protein_bept_csvpath w = Some rows /\ well_formed rows).
Proof.
  unfold write_reports, bind, makedirs, input_rows.
  destruct (can_mkdir w _) eqn:Hdir; [|now left].
  unfold read_potentials, bind, read_text, lift.
  destruct (files w !! protein_bept_csvpath) as [text|]; [|now left].
  destruct (csv_reader text) as [records stop].
  destruct (sum_rows no_totals (DictReader records)) as [totals|e] eqn:Hsum;
    [|now left].
  destruct stop; [now left|]. unfold ret, write_csv, bind.
  destruct (csv_records _ _) as [recs stop']. unfold write_text at 1.
  destruct (can_write w (output_csv_file protein_file output_dir)) eqn:Hcsv;
    [|now left].
  right. split; [reflexivity|]. split; [reflexivity|].
  exists (DictReader records). split; [reflexivity|].
  now apply sum_rows_inv in Hsum as [Hwf _].
Qed.

End FrameFacts.

(** * Further properties *)

(** X2.  The outcome of [get_surface_resi] depends on the permissions, on the
    text of the input CSV and on the text of the structure file, and on
    nothing else in the world: two worlds that agree on these give the same
    returned pair, and every file is either left alone in both or given the
    same text in both. *)
Theorem get_surface_resi_reads_two_files {F : PyFloat} {L : Libraries}
    (protein_file protein_bept_csvpath output_dir : string) (w1 w2 : World) :
  same_permissions w1 w2 ->
  files w1 !! protein_bept_csvpath = files w2 !! protein_bept_csvpath ->
  files w1 !! protein_file = files w2 !! protein_file ->
  returned protein_file protein_bept_csvpath output_dir w1
    = returned protein_file protein_bept_csvpath output_dir w2
  /\ forall p,
       (file_after protein_file protein_bept_csvpath output_dir w1 p = files w1 !! p
        /\ file_after protein_file protein_bept_csvpath output_dir w2 p = files w2 !! p)
       \/ exists text,
            file_after protein_file protein_bept_csvpath output_dir w1 p = Some text
            /\ file_after protein_file protein_bept_csvpath output_dir w2 p = Some text.
Proof.
  intros Hperm Hcsv Hpdb.
  assert (Hreads : forall p, p = protein_bept_csvpath \/ p = protein_file ->
                             files w1 !! p = files w2 !! p)
    by (intros p [->| ->]; assumption).
  split.
  - rewrite !returned_try_statements.
    destruct (footprint_try_statements protein_file protein_bept_csvpath output_dir
                w1 w2 Hperm Hreads) as (-> & _).
    destruct (footprint_write_reports
                (fun p => p = protein_bept_csvpath \/ p = protein_file)
                (fun p => True) protein_file protein_bept_csvpath output_dir
                (or_introl eq_refl) I I w1 w2 Hperm Hreads) as (-> & _).
    reflexivity.
  - intros p. unfold file_after. rewrite !files_after_try_statements.
    destruct (footprint_try_statements protein_file protein_bept_csvpath output_dir
                w1 w2 Hperm Hreads) as (_ & _ & _ & delta & _ & -> & ->).
    destruct (delta !! p) as [text|] eqn:Hp.
    + right. exists text. split; now apply lookup_union_Some_l.
    + left. split; now apply lookup_union_r.
Qed.

Lemma get_surface_resi_reads_two_files_witness :
  (@same_permissions binary64 (example_world spec_table true) cluttered_world
   /\ files (example_world spec_table true) !! "in.csv" = files cluttered_world !! "in.csv"
   /\ files (example_world spec_table true) !! "1abc.pdb"
      = files cluttered_world !! "1abc.pdb")
  /\ @returned binary64 plain_libraries "1abc.pdb" "in.csv" "out" cluttered_world
     = Ok ("out/1abc.pdb_surface_data.txt", false).
Proof.
  assert (Hperm : @same_permissions binary64 (example_world spec_table true)
                    cluttered_world) by (split; reflexivity).
  split; [split; [exact Hperm | split; reflexivity]|].
  destruct (@get_surface_resi_reads_two_files binary64 plain_libraries
              "1abc.pdb" "in.csv" "out" (example_world spec_table true)
              cluttered_world Hperm eq_refl eq_refl) as [<- _].
  reflexivity.
Defined.

(** X6.  What [get_surface_resi] prints.  A call that succeeds prints the
    success line and the surface line.  A call whose [try] block raises
    prints the error line of that exception, unless printing it raises, and
    then the call raises what the console raised.  The error line is alone
    when the block failed before the text table was written or when it was
    the success line that could not be printed; it follows the success line
    when [calc_sasa] failed.  Nothing else is printed. *)
Theorem get_surface_resi_console {F : PyFloat} {L : Libraries}
    (protein_file protein_bept_csvpath output_dir : string) (w : World) :
  (exists x,
     returned protein_file protein_bept_csvpath output_dir w
     = Ok (output_tabulated_file protein_file output_dir, false)
     /\ console (snd (get_surface_resi protein_file protein_bept_csvpath output_dir w))
        = console w ++ [Success protein_file; SasaValue protein_file x])
  \/ (exists e,
        fst (write_reports protein_file protein_bept_csvpath output_dir w) = Raise e
        /\ returned protein_file protein_bept_csvpath output_dir w = caught "" e
        /\ console (snd (get_surface_resi protein_file protein_bept_csvpath
                                          output_dir w))
           = console w ++ error_line e)
  \/ (exists e,
        fst (try_body protein_file protein_bept_csvpath output_dir (entry_frame w))
        = Raise e
        /\ markup_error (Success protein_file) = Some e
        /\ returned protein_file protein_bept_csvpath output_dir w
           = caught (output_tabulated_file protein_file output_dir) e
        /\ console (snd (get_surface_resi protein_file protein_bept_csvpath
                                          output_dir w))
           = console w ++ error_line e)
  \/ (exists e,
        fst (try_body protein_file protein_bept_csvpath output_dir (entry_frame w))
        = Raise e
        /\ markup_error (Success protein_file) = None
        /\ returned protein_file protein_bept_csvpath output_dir w
           = caught (output_tabulated_file protein_file output_dir) e
        /\ console (snd (get_surface_resi protein_file protein_bept_csvpath
                                          output_dir w))
           = console w ++ Success protein_file :: error_line e).
Proof.
  unfold returned. rewrite get_surface_resi_cases, try_body_cases.
  pose proof (write_reports_console protein_file protein_bept_csvpath output_dir w)
    as Hquiet.
  destruct (write_reports _ _ _ w) as [[[]|e] w1]; simpl in Hquiet.
  - unfold announce, bind, print.
    destruct (markup_error (Success protein_file)) as [e|] eqn:Hline.
    + right. right. left. exists e. split; [reflexivity|]. split; [reflexivity|].
      split; [apply handled_caught|]. now rewrite handled_console, Hquiet.
    + destruct (calc_sasa protein_file (printed (Success protein_file) w1))
        as [[[]|e] w2] eqn:Hsasa.
      * left. apply calc_sasa_ok_inv in Hsasa as (text & s & x & _ & _ & _ & _ & ->).
        exists (round2 x). split; [reflexivity|]. simpl.
        rewrite Hquiet, <- app_assoc. reflexivity.
      * right. right. right. apply calc_sasa_raise_inv in Hsasa as ->.
        exists e. split; [reflexivity|]. split; [reflexivity|].
        split; [apply handled_caught|]. rewrite handled_console. simpl.
        rewrite Hquiet, <- app_assoc. reflexivity.
  - right. left. exists e. split; [reflexivity|].
    split; [apply handled_caught|]. now rewrite handled_console, Hquiet.
Qed.



(** X8.  The rows are checked in order and the first row that is not
    well-formed ends the [try] block: the exception is the one that row
    raises by itself, the rows after it are not looked at, and no file is
    written.  The call prints the error line of that exception and returns
    the empty path with the error flag, unless printing the line raises, and
    then it raises that. *)
Theorem get_surface_resi_first_bad_row {F : PyFloat} {L : Libraries}
    (protein_file protein_bept_csvpath output_dir : string) (w : World)
    (good rest : list Row) (bad : Row) :
  can_mkdir w (PosixPath.join output_dir ".bept") = true ->
  input_rows protein_bept_csvpath w = Some (good ++ bad :: rest) ->
  well_formed good ->
  well_formed_row bad = false ->
  exists e,
    add_row no_totals bad = Raise e
    /\ returned protein_file protein_bept_csvpath output_dir w = caught "" e
    /\ console (snd (get_surface_resi protein_file protein_bept_csvpath output_dir w))
       = console w ++ error_line e
    /\ files (snd (get_surface_resi protein_file protein_bept_csvpath output_dir w))
       = files w.
Proof.
  intros Hdir Hrows Hgood Hbad.
  destruct (sum_rows_first_bad good rest bad Hgood Hbad) as (e & Hrow & Hsum).
  exists e. split; [exact Hrow|].
  unfold returned. rewrite get_surface_resi_cases. unfold write_reports, bind, makedirs.
  rewrite Hdir, (read_potentials_rows _ _ _ Hrows), Hsum.
  split; [apply handled_caught|].
  split; [apply handled_console | apply handled_files].
Qed.

Lemma get_surface_resi_first_bad_row_witness :
  (can_mkdir (example_world unparsable_table true) (PosixPath.join "out" ".bept")
   = true
   /\ @input_rows binary64 plain_libraries "in.csv"
        (example_world unparsable_table true)
      = Some ([[("Resi", Some "ALA"); ("Resi_Seq", Some "12");
                ("Potential", Some "1.5")]]
              ++ [("Resi", Some "GLY"); ("Resi_Seq", Some "13");
                  ("Potential", Some "high")] :: [])
   /\ @well_formed_row binary64
        [("Resi", Some "GLY"); ("Resi_Seq", Some "13"); ("Potential", Some "high")]
      = false)
  /\ exists e,
       @add_row binary64 no_totals
         [("Resi", Some "GLY"); ("Resi_Seq", Some "13"); ("Potential", Some "high")]
       = Raise e
       /\ @returned binary64 plain_libraries "1abc.pdb" "in.csv" "out"
            (example_world unparsable_table true)
          = @caught binary64 plain_libraries "" e
       /\ console (snd (run_get_surface_resi "1abc.pdb" "in.csv" "out"
                          (example_world unparsable_table true)))
          = console (example_world unparsable_table true)
            ++ @error_line binary64 plain_libraries e
       /\ files (snd (run_get_surface_resi "1abc.pdb" "in.csv" "out"
                        (example_world unparsable_table true)))
          = files (example_world unparsable_table true).
Proof.
  split; [repeat split|].
  apply (@get_surface_resi_first_bad_row binary64 plain_libraries
           "1abc.pdb" "in.csv" "out" (example_world unparsable_table true)
           [[("Resi", Some "ALA"); ("Resi_Seq", Some "12"); ("Potential", Some "1.5")]]
           []
           [("Resi", Some "GLY"); ("Resi_Seq", Some "13"); ("Potential", Some "high")]).
  - reflexivity.
  - reflexivity.
  - apply (@well_formed_forallb binary64). reflexivity.
  - reflexivity.
Defined.

(** X9.  The loop keeps the two dictionaries on the same keys in the same
    order.  So, once the rows are summed, the loops that write the CSV
    records and build the table cannot raise: every key of
    [resi_potentials] is found in [resi_names], and both loops give one row
    for each key. *)
Theorem writer_loops_never_raise {F : PyFloat}
    (acc totals : Totals) (rows : list Row) :
  PyDict.keys (resi_potentials acc) = PyDict.keys (resi_names acc) ->
  sum_rows acc rows = Ok totals ->
  PyDict.keys (resi_potentials totals) = PyDict.keys (resi_names totals)
  /\ snd (csv_records (resi_names totals) (resi_potentials totals)) = None
  /\ length (fst (csv_records (resi_names totals) (resi_potentials totals)))
     = length (resi_potentials totals)
  /\ exists data,
       table_data (resi_names totals) (resi_potentials totals) = Ok data
       /\ length data = length (resi_potentials totals).
Proof.
  intros Hacc Hsum.
  pose proof (sum_rows_keeps_keys rows acc totals Hacc Hsum) as Hkeys.
  split; [exact Hkeys|].
  destruct (csv_records_complete (resi_names totals) (resi_potentials totals))
    as (Hstop & Hdata & Hlen); [intros k; now rewrite Hkeys|].
  split; [exact Hstop|]. split; [exact Hlen|].
  eexists. split; [exact Hdata|]. now rewrite length_map.
Qed.

Lemma writer_loops_never_raise_witness :
  (PyDict.keys (resi_potentials (@no_totals binary64))
   = PyDict.keys (resi_names (@no_totals binary64))
   /\ @sum_rows binary64 no_totals (rows_of_table spec_table) = Ok spec_totals)
  /\ snd (csv_records (resi_names spec_totals) (resi_potentials spec_totals)) = None.
Proof.
  split; [split; reflexivity|].
  apply (@writer_loops_never_raise binary64 no_totals spec_totals
           (rows_of_table spec_table) eq_refl eq_refl).
Defined.

(** X10.  [get_surface_resi] returns the error flag false exactly when every
    step can be done: the cache directory can be made, the input CSV is read
    to its end and all its rows are well-formed, both output files can be
    opened for writing, the success line can be printed, the structure file
    is there, is parsed and has its surface computed, and the surface line
    can be printed. *)
Theorem get_surface_resi_succeeds_iff {F : PyFloat} {L : Libraries}
    (protein_file protein_bept_csvpath output_dir : string) (w : World) :
  (exists path,
     returned protein_file protein_bept_csvpath output_dir w = Ok (path, false))
  <-> (can_mkdir w (PosixPath.join output_dir ".bept") = true
       /\ (exists rows,
             input_rows protein_bept_csvpath w = Some rows /\ well_formed rows)
       /\ can_write w (output_csv_file protein_file output_dir) = true
       /\ can_write w (output_tabulated_file protein_file output_dir) = true
       /\ markup_error (Success protein_file) = None
       /\ exists text s x,
            files w !! protein_file = Some text
            /\ get_structure (protein_id protein_file) text = Ok s
            /\ shrake_rupley s = Ok x
            /\ markup_error (SasaValue protein_file (round2 x)) = None).
Proof.
  rewrite returned_cases. split.
  - intros [path Hret].
    destruct (write_reports _ _ _ w) as [[[]|e] w1] eqn:Hwrite;
      [|now apply caught_ok in Hret as [_ [= _]]].
    apply write_reports_ok_inv in Hwrite as (Hdir & Hrows & Hcsv & Htxt & Hpdb).
    simpl in Hret. unfold announce, bind, print in Hret.
    destruct (markup_error (Success protein_file)) as [e|] eqn:Hline;
      [now apply caught_ok in Hret as [_ [= _]]|].
    destruct (calc_sasa protein_file (printed (Success protein_file) w1))
      as [[[]|e] w2] eqn:Hsasa; [|now apply caught_ok in Hret as [_ [= _]]].
    apply calc_sasa_ok_inv in Hsasa as (text & s & x & Hfile & Hparse & Hx & Hprint & _).
    simpl in Hfile. rewrite Hpdb in Hfile.
    repeat (split; [assumption|]). split; [reflexivity|]. now exists text, s, x.
  - intros (Hdir & (rows & Hrows & Hwf) & Hcsv & Htxt & Hline
            & text & s & x & Hfile & Hparse & Hx & Hprint).
    destruct (protein_file_is_no_output protein_file output_dir) as [Hne1 Hne2].
    exists (output_tabulated_file protein_file output_dir).
    rewrite (write_reports_well_formed _ _ _ _ _ Hdir Hrows Hwf). cbv zeta.
    rewrite Hcsv, Htxt. simpl. unfold announce, bind, print. rewrite Hline.
    erewrite calc_sasa_ok; [reflexivity | | exact Hparse | exact Hx | exact Hprint].
    simpl. rewrite !lookup_insert_ne by congruence. exact Hfile.
Qed.

(** X11.  An input without a data row (a header alone, or nothing at all) is
    no error: the CSV file gets the header line alone, the text table is made
    from no row, and a call that returns gives the path of the text table. *)
Theorem get_surface_resi_no_data_row {F : PyFloat} {L : Libraries}
    (protein_file protein_bept_csvpath output_dir : string) (w : World) :
  can_mkdir w (PosixPath.join output_dir ".bept") = true ->
  input_rows protein_bept_csvpath w = Some [] ->
  can_write w (output_csv_file protein_file output_dir) = true ->
  can_write w (output_tabulated_file protein_file output_dir) = true ->
  file_after protein_file protein_bept_csvpath output_dir w
             (output_csv_file protein_file output_dir)
    = Some (csv_writer [csv_header])
  /\ file_after protein_file protein_bept_csvpath output_dir w
                (output_tabulated_file protein_file output_dir)
     = Some (tabulate [])
  /\ forall path flag,
       returned protein_file protein_bept_csvpath output_dir w = Ok (path, flag) ->
       path = output_tabulated_file protein_file output_dir.
Proof.
  intros Hdir Hrows Hcsv Htxt.
  assert (Hwf : well_formed []) by apply Forall_nil_2.
  split; [apply (csv_file_after _ _ _ _ [] Hdir Hrows Hwf Hcsv)|].
  split; [apply (txt_file_after _ _ _ _ [] Hdir Hrows Hwf Hcsv Htxt)|].
  intros path flag Hret. apply returned_path in Hret. rewrite Hret.
  rewrite (write_reports_well_formed _ _ _ _ _ Hdir Hrows Hwf).
  cbv zeta. now rewrite Hcsv, Htxt.
Qed.

Lemma get_surface_resi_no_data_row_witness :
  (can_mkdir (example_world header_only_table true) (PosixPath.join "out" ".bept")
   = true
   /\ @input_rows binary64 plain_libraries "in.csv"
        (example_world header_only_table true) = Some []
   /\ can_write (example_world header_only_table true)
                (output_csv_file "1abc.pdb" "out") = true
   /\ can_write (example_world header_only_table true)
                (output_tabulated_file "1abc.pdb" "out") = true)
  /\ @file_after binary64 plain_libraries "1abc.pdb" "in.csv" "out"
       (example_world header_only_table true) "out/.bept/1abc.pdb_surface_data.csv"
     = Some (unlines ["Resi,Resi_Seq,Resi_Potential"]).
Proof.
  split; [repeat split|].
  destruct (@get_surface_resi_no_data_row binary64 plain_libraries
              "1abc.pdb" "in.csv" "out" (example_world header_only_table true)
              eq_refl eq_refl eq_refl eq_refl) as [Hcsv _].
  exact Hcsv.
Defined.

(** X12.  When every row of a well-formed input has a key of its own, the
    rows written are the input rows, in input order, each with its name, its
    key and its potential added to [0.0]. *)
Theorem distinct_keys_pass_through {F : PyFloat} (rows : list Row) :
  well_formed rows ->
  NoDup (map (field "Resi_Seq") rows) ->
  written_records rows
  = Some (map (fun row => [cell_of (field "Resi" row);
                           cell_of (field "Resi_Seq" row);
                           CFloat (add zero (potential_of row))])
              rows).
Proof.
  intros Hwf Hnd. rewrite (written_records_report rows Hwf), (report_distinct rows Hnd).
  now rewrite map_map.
Qed.

Lemma distinct_keys_pass_through_witness :
  (forallb (@well_formed_row binary64) (rows_of_table distinct_table) = true
   /\ map (field "Resi_Seq") (rows_of_table distinct_table) = [Some "12"; Some "13"])
  /\ @written_records binary64 (rows_of_table distinct_table)
     = Some [[@CStr binary64 "ALA"; CStr "12"; @CFloat binary64 1.5%float];
             [@CStr binary64 "GLY"; CStr "13"; @CFloat binary64 0.5%float]].
Proof.
  split; [split; reflexivity|].
  rewrite (@distinct_keys_pass_through binary64 (rows_of_table distinct_table)).
  - reflexivity.
  - apply (@well_formed_forallb binary64). reflexivity.
  - apply (bool_decide_unpack _). reflexivity.
Defined.

(** X13.  One more well-formed row at the end of a well-formed input changes
    the rows written in one place.  If its key is new, a row with its name,
    its key and its potential added to [0.0] is appended.  If its key is
    known, the row of that key stays where it is, takes the new name and has
    the new potential added to its sum; the other rows are as before. *)
Theorem one_more_row {F : PyFloat} (rows : list Row) (row : Row) :
  well_formed rows ->
  well_formed_row row = true ->
  written_records rows = Some (map record_of (report rows))
  /\ written_records (rows ++ [row])
     = Some (map record_of
               (if decide (field "Resi_Seq" row ∈ map (field "Resi_Seq") rows)
                then map (fun r =>
                            if decide (Resi_Seq r = field "Resi_Seq" row)
                            then {| Resi := field "Resi" row;
                                    Resi_Seq := Resi_Seq r;
                                    Resi_Potential :=
                                      add (Resi_Potential r) (potential_of row) |}
                            else r)
                         (report rows)
                else report rows
                     ++ [{| Resi := field "Resi" row;
                            Resi_Seq := field "Resi_Seq" row;
                            Resi_Potential := add zero (potential_of row) |}])).
Proof.
  intros Hwf Hrow. split; [now apply written_records_report|].
  rewrite written_records_report, report_snoc; [reflexivity|].
  apply Forall_app. split; [exact Hwf | now apply Forall_singleton].
Qed.

Lemma one_more_row_witness :
  (forallb (@well_formed_row binary64) (rows_of_table spec_table) = true
   /\ @well_formed_row binary64 late_row = true)
  /\ @written_records binary64 (rows_of_table spec_table ++ [late_row])
     = Some [[@CStr binary64 "SER"; CStr "12"; @CFloat binary64 4.5%float];
             [@CStr binary64 "GLY"; CStr "13"; @CFloat binary64 0%float]].
Proof.
  split; [split; reflexivity|].
  destruct (@one_more_row binary64 (rows_of_table spec_table) late_row
              (@well_formed_forallb binary64 (rows_of_table spec_table) eq_refl)
              eq_refl) as [_ Hmore].
  rewrite Hmore. reflexivity.
Defined.

(** X14.  When [protein_file] is an absolute path, [output_dir] plays no part
    in the names of the output files: both are named after [protein_file]
    itself, the CSV outside any [.bept] directory, and the path returned on
    success is [protein_file] followed by [_surface_data.txt]. *)
Theorem absolute_protein_file_outputs {F : PyFloat} {L : Libraries}
    (protein_file protein_bept_csvpath output_dir : string) (w : World) :
  Str.startswith protein_file "/" = true ->
  output_csv_file protein_file output_dir = protein_file +:+ "_surface_data.csv"
  /\ output_tabulated_file protein_file output_dir
     = protein_file +:+ "_surface_data.txt"
  /\ (forall path,
        returned protein_file protein_bept_csvpath output_dir w = Ok (path, false) ->
        path = protein_file +:+ "_surface_data.txt").
Proof.
  intros Habs.
  assert (Hcsv : output_csv_file protein_file output_dir
                 = protein_file +:+ "_surface_data.csv").
  { unfold output_csv_file, PosixPath.join at 1.
    now rewrite (startswith_app protein_file "_surface_data.csv" eq_refl), Habs. }
  assert (Htxt : output_tabulated_file protein_file output_dir
                 = protein_file +:+ "_surface_data.txt").
  { unfold output_tabulated_file, PosixPath.join.
    now rewrite (startswith_app protein_file "_surface_data.txt" eq_refl), Habs. }
  split; [exact Hcsv|]. split; [exact Htxt|].
  intros path Hret. rewrite <- Htxt. now apply (returned_false _ _ _ _ _ Hret).
Qed.

Lemma absolute_protein_file_outputs_witness :
  Str.startswith "/data/1abc.pdb" "/" = true
  /\ output_csv_file "/data/1abc.pdb" "out" = "/data/1abc.pdb_surface_data.csv"
  /\ output_tabulated_file "/data/1abc.pdb" "out" = "/data/1abc.pdb_surface_data.txt".
Proof.
  split; [reflexivity|].
  destruct (@absolute_protein_file_outputs binary64 plain_libraries
              "/data/1abc.pdb" "in.csv" "out" (example_world spec_table true) eq_refl)
    as (Hcsv & Htxt & _).
  split; [exact Hcsv | exact Htxt].
Defined.

(** X15.  When [protein_file] is a relative path, the text table is named
    [protein_file] followed by [_surface_data.txt] inside [output_dir], and
    the CSV is named [protein_file] followed by [_surface_data.csv] inside
    the directory [.bept] of [output_dir]. *)
Theorem relative_protein_file_outputs (protein_file output_dir : string) :
  Str.startswith protein_file "/" = false ->
  output_tabulated_file protein_file output_dir
    = directory_prefix output_dir +:+ protein_file +:+ "_surface_data.txt"
  /\ output_csv_file protein_file output_dir
     = directory_prefix output_dir +:+ ".bept/" +:+ protein_file
       +:+ "_surface_data.csv".
Proof.
  intros Hrel.
  assert (Hstart : forall ext, Str.startswith ext "/" = false ->
                    Str.startswith (protein_file +:+ ext) "/" = false)
    by (intros ext Hext; now rewrite startswith_app).
  unfold output_tabulated_file, output_csv_file. split.
  - apply join_relative. now apply Hstart.
  - rewrite (join_relative output_dir ".bept" eq_refl).
    rewrite join_relative by now apply Hstart.
    rewrite directory_prefix_bept. now rewrite str_app_assoc.
Qed.

Lemma relative_protein_file_outputs_witness :
  Str.startswith "1abc.pdb" "/" = false
  /\ output_tabulated_file "1abc.pdb" "out" = "out/1abc.pdb_surface_data.txt"
  /\ output_csv_file "1abc.pdb" "out" = "out/.bept/1abc.pdb_surface_data.csv".
Proof.
  split; [reflexivity|].
  destruct (relative_protein_file_outputs "1abc.pdb" "out" eq_refl) as [Htxt Hcsv].
  split; [rewrite Htxt | rewrite Hcsv]; reflexivity.
Defined.

(** X16.  The identifier of [biop_fetch] is the file name itself or the file
    name without its last four characters, [.pdb]; and the identifier of a
    file name that is not empty is not empty. *)
Theorem protein_id_drops_at_most_suffix (protein_file : string) :
  (protein_file = protein_id protein_file
   \/ protein_file = protein_id protein_file +:+ ".pdb")
  /\ (protein_id protein_file = "" -> protein_file = "").
Proof.
  unfold protein_id.
  destruct (Str.endswith protein_file ".pdb") eqn:Hends; [|now split; [left|]].
  destruct (endswith_inv _ _ Hends) as [r ->].
  rewrite splitext_root_pdb.
  destruct (Str.all_dots (PosixPath.basename r)) eqn:Hdots.
  - split; [now left | trivial].
  - split; [now right|]. intros ->. discriminate Hdots.
Qed.

(** X17.  The input is checked as a whole before anything is written: either
    [get_surface_resi] leaves every file as it was, or the cache directory
    could be made, the input CSV was read to its end with all its rows
    well-formed, and the CSV file could be opened.  So an input with a bad
    row, however late the row, never leaves a partial report. *)
Theorem get_surface_resi_all_or_nothing {F : PyFloat} {L : Libraries}
    (protein_file protein_bept_csvpath output_dir : string) (w : World) :
  files (snd (get_surface_resi protein_file protein_bept_csvpath output_dir w))
    = files w
  \/ (can_mkdir w (PosixPath.join output_dir ".bept") = true
      /\ can_write w (output_csv_file protein_file output_dir) = true
      /\ exists rows,
           input_rows protein_bept_csvpath w = Some rows /\ well_formed rows).
Proof.
  rewrite files_after_write_reports. apply write_reports_all_or_nothing.
Qed.
